(** * Device conditions for sensors

    A shallow embedding of
    [homeassistant/components/sensor/device_condition.py]: the table of
    condition templates, the validation schema of a condition
    configuration, and the three operations the host calls
    ([async_get_conditions], [async_condition_from_config],
    [async_get_condition_capabilities]), followed by the properties the
    specification states about them.

    Python dictionaries are finite maps ([gmap]) with string keys, raised
    exceptions are the [Raise] branch of a result type, and the host
    ([hass]) is the record of the lookups the module performs on it. *)

From Stdlib Require Import ZArith.
From Stdlib Require Import Floats.SpecFloat.
From stdpp Require Import base option list strings gmap fin_maps.

Local Open Scope string_scope.
Local Open Scope list_scope.

(** ** Python values and exceptions *)

(** The values a configuration dictionary holds.  A float is carried as
    the IEEE-754 datum it is; the module only ever copies it. *)
Inductive Value : Type :=
| VNone
| VBool (b : bool)
| VInt (z : Z)
| VFloat (x : spec_float)
| VStr (s : string).

(** The exceptions that cross this module.  [InvalidDeviceAutomationConfig]
    derives from [HomeAssistantError]; [Invalid] is voluptuous' [vol.Invalid]. *)
Inductive Exception : Type :=
| HomeAssistantError (msg : string)
| InvalidDeviceAutomationConfig (msg : string)
| KeyError (key : string)
| Invalid (msg : string).

(** [except HomeAssistantError] catches the class and its subclasses. *)
Definition is_HomeAssistantError (e : Exception) : bool :=
  match e with
  | HomeAssistantError _ | InvalidDeviceAutomationConfig _ => true
  | KeyError _ | Invalid _ => false
  end.

Inductive Result (A : Type) : Type :=
| Return (a : A)
| Raise (e : Exception).
Arguments Return {A} a.
Arguments Raise {A} e.

#[global] Instance Result_ret : MRet Result := fun _ a => Return a.
#[global] Instance Result_bind : MBind Result := fun _ _ f m =>
  match m with
  | Return a => f a
  | Raise e => Raise e
  end.

(** [try: m except HomeAssistantError: h] *)
Definition try_except_HomeAssistantError {A} (m : Result A) (h : Result A) : Result A :=
  match m with
  | Return a => Return a
  | Raise e => if is_HomeAssistantError e then h else Raise e
  end.

(** Truth value of a [str | None]: [None] and the empty string are false. *)
Definition truthy (o : option string) : bool :=
  match o with
  | None => false
  | Some s => negb (String.eqb s "")
  end.

(** [o or d] for a [str | None] on the left. *)
Definition py_or (o : option string) (d : string) : string :=
  match o with
  | Some s => if truthy o then s else d
  | None => d
  end.

(** ** Dictionaries *)

(** A dictionary display [{k1: v1, ..., kn: vn}]: the pairs are stored from
    left to right, a later pair replacing an earlier one with an equal key. *)
Definition dict_literal {V} (items : list (string * V)) : gmap string V :=
  foldl (fun d kv => <[kv.1 := kv.2]> d) ∅ items.

(** [d[k]] *)
Definition getitem {V} (d : gmap string V) (k : string) : Result V :=
  match d !! k with
  | Some v => Return v
  | None => Raise (KeyError k)
  end.

(** [d.get(k, default)] *)
Definition dict_get {V} (d : gmap string V) (k : string) (default : V) : V :=
  match d !! k with
  | Some v => v
  | None => default
  end.

(** [k in d] *)
Definition contains {V} (d : gmap string V) (k : string) : bool :=
  bool_decide (is_Some (d !! k)).

(** ** Constants *)

(** Modelled from the spec: the key names of [homeassistant.const] and of
    [homeassistant.helpers.condition], and the sensor package's [DOMAIN],
    are declared outside this module.  They are the field names the
    produced descriptors and configurations carry. *)
Definition CONF_ABOVE : string := "above".
Definition CONF_BELOW : string := "below".
Definition CONF_ENTITY_ID : string := "entity_id".
Definition CONF_TYPE : string := "type".
Definition CONF_CONDITION : string := "condition".
Definition DOMAIN : string := "sensor".

Definition DEVICE_CLASS_NONE : string := "none".

Definition CONF_IS_APPARENT_POWER := "is_apparent_power".
Definition CONF_IS_BATTERY_LEVEL := "is_battery_level".
Definition CONF_IS_CO := "is_carbon_monoxide".
Definition CONF_IS_CO2 := "is_carbon_dioxide".
Definition CONF_IS_CURRENT := "is_current".
Definition CONF_IS_ENERGY := "is_energy".
Definition CONF_IS_FREQUENCY := "is_frequency".
Definition CONF_IS_HUMIDITY := "is_humidity".
Definition CONF_IS_GAS := "is_gas".
Definition CONF_IS_ILLUMINANCE := "is_illuminance".
Definition CONF_IS_NITROGEN_DIOXIDE := "is_nitrogen_dioxide".
Definition CONF_IS_NITROGEN_MONOXIDE := "is_nitrogen_monoxide".
Definition CONF_IS_NITROUS_OXIDE := "is_nitrous_oxide".
Definition CONF_IS_OZONE := "is_ozone".
Definition CONF_IS_PM1 := "is_pm1".
Definition CONF_IS_PM10 := "is_pm10".
Definition CONF_IS_PM25 := "is_pm25".
Definition CONF_IS_POWER := "is_power".
Definition CONF_IS_POWER_FACTOR := "is_power_factor".
Definition CONF_IS_PRESSURE := "is_pressure".
Definition CONF_IS_REACTIVE_POWER := "is_reactive_power".
Definition CONF_IS_SIGNAL_STRENGTH := "is_signal_strength".
Definition CONF_IS_SULPHUR_DIOXIDE := "is_sulphur_dioxide".
Definition CONF_IS_TEMPERATURE := "is_temperature".
Definition CONF_IS_VOLATILE_ORGANIC_COMPOUNDS := "is_volatile_organic_compounds".
Definition CONF_IS_VOLTAGE := "is_voltage".
Definition CONF_IS_VALUE := "is_value".

(** ** The device-class enumeration *)

(** The members of [SensorDeviceClass] that the module names.  The
    enumeration itself is declared in the sensor package. *)
Inductive SensorDeviceClass : Type :=
| APPARENT_POWER | BATTERY | CO | CO2 | CURRENT | ENERGY | FREQUENCY | GAS
| HUMIDITY | ILLUMINANCE | NITROGEN_DIOXIDE | NITROGEN_MONOXIDE
| NITROUS_OXIDE | OZONE | POWER | POWER_FACTOR | PM1 | PM10 | PM25
| PRESSURE | REACTIVE_POWER | SIGNAL_STRENGTH | SULPHUR_DIOXIDE
| TEMPERATURE | VOLATILE_ORGANIC_COMPOUNDS | VOLTAGE.

(** A string enumeration: every member is (equal to, and hashes as) its
    string value, and two members with the same value are one member. *)
Class StrEnum (E : Type) : Type := {
  value : E -> string;
  value_inj : forall a b : E, value a = value b -> a = b
}.

(** ** The host *)

Record RegistryEntry : Type := {
  entity_id : string;
  domain : string
}.

Record EntityRegistry : Type := {
  async_entries_for_device : string -> list RegistryEntry
}.

(** [hass], seen through the helpers this module calls on it.  The helpers
    are handed whatever value the caller holds as entity id. *)
Record HomeAssistant : Type := {
  async_get_registry : EntityRegistry;
  get_device_class : Value -> Result (option string);
  get_unit_of_measurement : Value -> Result (option string)
}.

Section Conditions.
Context `{StrEnum SensorDeviceClass}.

Definition ENTITY_CONDITIONS : gmap string (list (gmap string string)) :=
  dict_literal [
    (value APPARENT_POWER, [ {[CONF_TYPE := CONF_IS_APPARENT_POWER]} ]);
    (value BATTERY, [ {[CONF_TYPE := CONF_IS_BATTERY_LEVEL]} ]);
    (value CO, [ {[CONF_TYPE := CONF_IS_CO]} ]);
    (value CO2, [ {[CONF_TYPE := CONF_IS_CO2]} ]);
    (value CURRENT, [ {[CONF_TYPE := CONF_IS_CURRENT]} ]);
    (value ENERGY, [ {[CONF_TYPE := CONF_IS_ENERGY]} ]);
    (value FREQUENCY, [ {[CONF_TYPE := CONF_IS_FREQUENCY]} ]);
    (value GAS, [ {[CONF_TYPE := CONF_IS_GAS]} ]);
    (value HUMIDITY, [ {[CONF_TYPE := CONF_IS_HUMIDITY]} ]);
    (value ILLUMINANCE, [ {[CONF_TYPE := CONF_IS_ILLUMINANCE]} ]);
    (value NITROGEN_DIOXIDE, [ {[CONF_TYPE := CONF_IS_NITROGEN_DIOXIDE]} ]);
    (value NITROGEN_MONOXIDE, [ {[CONF_TYPE := CONF_IS_NITROGEN_MONOXIDE]} ]);
    (value NITROUS_OXIDE, [ {[CONF_TYPE := CONF_IS_NITROUS_OXIDE]} ]);
    (value OZONE, [ {[CONF_TYPE := CONF_IS_OZONE]} ]);
    (value POWER, [ {[CONF_TYPE := CONF_IS_POWER]} ]);
    (value POWER_FACTOR, [ {[CONF_TYPE := CONF_IS_POWER_FACTOR]} ]);
    (value PM1, [ {[CONF_TYPE := CONF_IS_PM1]} ]);
    (value PM10, [ {[CONF_TYPE := CONF_IS_PM10]} ]);
    (value PM25, [ {[CONF_TYPE := CONF_IS_PM25]} ]);
    (value PRESSURE, [ {[CONF_TYPE := CONF_IS_PRESSURE]} ]);
    (value REACTIVE_POWER, [ {[CONF_TYPE := CONF_IS_REACTIVE_POWER]} ]);
    (value SIGNAL_STRENGTH, [ {[CONF_TYPE := CONF_IS_SIGNAL_STRENGTH]} ]);
    (value SULPHUR_DIOXIDE, [ {[CONF_TYPE := CONF_IS_SULPHUR_DIOXIDE]} ]);
    (value TEMPERATURE, [ {[CONF_TYPE := CONF_IS_TEMPERATURE]} ]);
    (value VOLATILE_ORGANIC_COMPOUNDS,
       [ {[CONF_TYPE := CONF_IS_VOLATILE_ORGANIC_COMPOUNDS]} ]);
    (value VOLTAGE, [ {[CONF_TYPE := CONF_IS_VOLTAGE]} ]);
    (DEVICE_CLASS_NONE, [ {[CONF_TYPE := CONF_IS_VALUE]} ])
  ].

(** [{**template, "condition": "device", "device_id": device_id,
      "entity_id": entry.entity_id, "domain": DOMAIN}] *)
Definition descriptor (device_id : string) (entry : RegistryEntry)
    (template : gmap string string) : gmap string string :=
  <["domain" := DOMAIN]>
    (<["entity_id" := entity_id entry]>
      (<["device_id" := device_id]>
        (<["condition" := "device"]> template))).

(** One turn of the [for entry in entries] loop, on the list built so far. *)
Definition loop_body (hass : HomeAssistant) (device_id : string)
    (conditions : list (gmap string string)) (entry : RegistryEntry)
    : Result (list (gmap string string)) :=
  dc ← get_device_class hass (VStr (entity_id entry));
  let device_class := py_or dc DEVICE_CLASS_NONE in
  unit_of_measurement ← get_unit_of_measurement hass (VStr (entity_id entry));
  if negb (truthy unit_of_measurement) then
    mret conditions
  else
    fallback ← getitem ENTITY_CONDITIONS DEVICE_CLASS_NONE;
    let templates := dict_get ENTITY_CONDITIONS device_class fallback in
    mret (conditions ++ (descriptor device_id entry <$> templates)).

Fixpoint for_entries (hass : HomeAssistant) (device_id : string)
    (entries : list RegistryEntry) (conditions : list (gmap string string))
    : Result (list (gmap string string)) :=
  match entries with
  | [] => mret conditions
  | entry :: rest =>
      conditions' ← loop_body hass device_id conditions entry;
      for_entries hass device_id rest conditions'
  end.

Definition async_get_conditions (hass : HomeAssistant) (device_id : string)
    : Result (list (gmap string string)) :=
  let conditions := [] in
  let entity_registry := async_get_registry hass in
  let entries :=
    filter (fun entry => domain entry = DOMAIN)
           (async_entries_for_device entity_registry device_id) in
  for_entries hass device_id entries conditions.

End Conditions.

Arguments ENTITY_CONDITIONS {_} : simpl never.

(** ** Voluptuous schemas, as data *)

#[local] Set Warnings "-register-all".

Inductive PyType : Type := py_float.

(** The value validators the module writes: [vol.Coerce(t)], [vol.In(c)],
    [vol.Any(v, ...)], and a plain callable such as [cv.entity_id]. *)
Inductive ValueSchema : Type :=
| Coerce (type : PyType)
| In (container : list string)
| Any (validators : list ValueSchema)
| Callable (f : Value -> Result Value).

Inductive MarkerKind : Type := Required | Optional.

(** [vol.Required(key)] and [vol.Optional(key, description=...)]. *)
Record Marker : Type := {
  kind : MarkerKind;
  key : string;
  description : option (gmap string string)
}.

(** A dictionary display whose keys are markers.  A marker is equal to, and
    hashes as, the key it wraps: storing under an equal key keeps the key
    object already there and replaces the value. *)
Definition marker_dict (items : list (Marker * ValueSchema))
    : gmap string (Marker * ValueSchema) :=
  foldl (fun d kv =>
           match d !! key kv.1 with
           | Some (m0, _) => <[key kv.1 := (m0, kv.2)]> d
           | None => <[key kv.1 := (kv.1, kv.2)]> d
           end) ∅ items.

Inductive Schema : Type :=
| vol_Schema (schema : gmap string (Marker * ValueSchema)).

Definition fields (s : Schema) : gmap string (Marker * ValueSchema) :=
  match s with vol_Schema d => d end.

(** [base.extend(d)]: an item of [d] replaces the item of [base] with the
    same key literal, marker and value, and is added otherwise. *)
Definition extend (base : Schema) (d : gmap string (Marker * ValueSchema)) : Schema :=
  vol_Schema (d ∪ fields base).

(** [vol.All(v1, ..., vn)]: the validators run in order, each on the output
    of the one before; the first to raise ends the validation. *)
Definition vol_All {A} (validators : list (A -> Result A)) (v : A) : Result A :=
  foldl (fun r validate => r ≫= validate) (Return v) validators.

(** Modelled from the spec: [cv.has_at_least_one_key] is declared in
    [homeassistant.helpers.config_validation], outside this module.  "At
    least one of the two bounds must be present; this is enforced before
    acceptance": the validator passes a dictionary holding one of the keys
    on unchanged and rejects any other. *)
Definition has_at_least_one_key (keys : list string) (obj : gmap string Value)
    : Result (gmap string Value) :=
  if existsb (contains obj) keys then Return obj
  else Raise (Invalid ("must contain at least one of "
                         ++ String.concat ", " keys ++ ".")%string).

Section ConditionSchema.
(** [cv.DEVICE_CONDITION_BASE_SCHEMA] and [cv.entity_id], declared in
    [homeassistant.helpers.config_validation], and voluptuous' validation
    of a dictionary against a dictionary schema. *)
Variable DEVICE_CONDITION_BASE_SCHEMA : Schema.
Variable cv_entity_id : Value -> Result Value.
Variable validate_mapping :
  Schema -> gmap string Value -> Result (gmap string Value).

Definition CONDITION_FIELDS : Schema :=
  extend DEVICE_CONDITION_BASE_SCHEMA
    (marker_dict [
       ({| kind := Required; key := CONF_ENTITY_ID; description := None |},
        Callable cv_entity_id);
       ({| kind := Required; key := CONF_TYPE; description := None |},
        In [
          CONF_IS_APPARENT_POWER;
          CONF_IS_BATTERY_LEVEL;
          CONF_IS_CO;
          CONF_IS_CO2;
          CONF_IS_CURRENT;
          CONF_IS_ENERGY;
          CONF_IS_FREQUENCY;
          CONF_IS_GAS;
          CONF_IS_HUMIDITY;
          CONF_IS_ILLUMINANCE;
          CONF_IS_OZONE;
          CONF_IS_NITROGEN_DIOXIDE;
          CONF_IS_NITROGEN_MONOXIDE;
          CONF_IS_NITROUS_OXIDE;
          CONF_IS_POWER;
          CONF_IS_POWER_FACTOR;
          CONF_IS_PM1;
          CONF_IS_PM10;
          CONF_IS_PM25;
          CONF_IS_PRESSURE;
          CONF_IS_REACTIVE_POWER;
          CONF_IS_SIGNAL_STRENGTH;
          CONF_IS_SULPHUR_DIOXIDE;
          CONF_IS_TEMPERATURE;
          CONF_IS_VOLATILE_ORGANIC_COMPOUNDS;
          CONF_IS_VOLTAGE;
          CONF_IS_VALUE
        ]);
       ({| kind := Optional; key := CONF_BELOW; description := None |},
        Any [Coerce py_float]);
       ({| kind := Optional; key := CONF_ABOVE; description := None |},
        Any [Coerce py_float])
     ]).

Definition CONDITION_SCHEMA : gmap string Value -> Result (gmap string Value) :=
  vol_All [
    validate_mapping CONDITION_FIELDS;
    has_at_least_one_key [CONF_BELOW; CONF_ABOVE]
  ].
End ConditionSchema.

(** ** The condition compiler *)

(** Lines 171-178: the numeric-state configuration built from [config]. *)
Definition numeric_state_config (config : gmap string Value)
    : Result (gmap string Value) :=
  entity ← getitem config CONF_ENTITY_ID;
  let numeric_state_config :=
    dict_literal [
      (CONF_CONDITION, VStr "numeric_state");
      (CONF_ENTITY_ID, entity)
    ] in
  numeric_state_config ←
    (if contains config CONF_ABOVE then
       above ← getitem config CONF_ABOVE;
       mret (<[CONF_ABOVE := above]> numeric_state_config)
     else mret numeric_state_config);
  numeric_state_config ←
    (if contains config CONF_BELOW then
       below ← getitem config CONF_BELOW;
       mret (<[CONF_BELOW := below]> numeric_state_config)
     else mret numeric_state_config);
  mret numeric_state_config.

Section Compiler.
(** The host's numeric-state condition: its schema, its
    configuration normaliser and its factory of checkers. *)
Variable ConditionCheckerType : Type.
Variable NUMERIC_STATE_CONDITION_SCHEMA :
  gmap string Value -> Result (gmap string Value).
Variable numeric_state_validate_config :
  HomeAssistant -> gmap string Value -> Result (gmap string Value).
Variable async_numeric_state_from_config :
  gmap string Value -> Result ConditionCheckerType.

Definition async_condition_from_config (hass : HomeAssistant)
    (config : gmap string Value) : Result ConditionCheckerType :=
  numeric_state_config ← numeric_state_config config;
  numeric_state_config ← NUMERIC_STATE_CONDITION_SCHEMA numeric_state_config;
  numeric_state_config ← numeric_state_validate_config hass numeric_state_config;
  async_numeric_state_from_config numeric_state_config.
End Compiler.

(** ** The capability builder *)

Definition async_get_condition_capabilities (hass : HomeAssistant)
    (config : gmap string Value) : Result (gmap string Schema) :=
  unit_of_measurement ←
    try_except_HomeAssistantError
      (entity ← getitem config CONF_ENTITY_ID;
       get_unit_of_measurement hass entity)
      (mret None);
  let no_unit : Result (gmap string Schema) :=
    Raise (InvalidDeviceAutomationConfig
      "No unit of measurement found for condition entity {config[CONF_ENTITY_ID]}") in
  match unit_of_measurement with
  | None => no_unit
  | Some suffix =>
      if negb (truthy unit_of_measurement) then no_unit
      else
        mret {[ "extra_fields" :=
                vol_Schema (marker_dict [
                  ({| kind := Optional; key := CONF_ABOVE;
                      description := Some {[ "suffix" := suffix ]} |},
                   Coerce py_float);
                  ({| kind := Optional; key := CONF_BELOW;
                      description := Some {[ "suffix" := suffix ]} |},
                   Coerce py_float)
                ]) ]}
  end.

(** ** A concrete enumeration and a concrete host *)

(** Modelled from the spec: the values of the [SensorDeviceClass] members
    are declared in the sensor package.  The spec names a classification
    by its value ("temperature", "power", "humidity"): the member's name in
    lower case, with [CO] and [CO2] spelled out as in their condition
    types. *)
Definition SensorDeviceClass_value (c : SensorDeviceClass) : string :=
  match c with
  | APPARENT_POWER => "apparent_power"
  | BATTERY => "battery"
  | CO => "carbon_monoxide"
  | CO2 => "carbon_dioxide"
  | CURRENT => "current"
  | ENERGY => "energy"
  | FREQUENCY => "frequency"
  | GAS => "gas"
  | HUMIDITY => "humidity"
  | ILLUMINANCE => "illuminance"
  | NITROGEN_DIOXIDE => "nitrogen_dioxide"
  | NITROGEN_MONOXIDE => "nitrogen_monoxide"
  | NITROUS_OXIDE => "nitrous_oxide"
  | OZONE => "ozone"
  | POWER => "power"
  | POWER_FACTOR => "power_factor"
  | PM1 => "pm1"
  | PM10 => "pm10"
  | PM25 => "pm25"
  | PRESSURE => "pressure"
  | REACTIVE_POWER => "reactive_power"
  | SIGNAL_STRENGTH => "signal_strength"
  | SULPHUR_DIOXIDE => "sulphur_dioxide"
  | TEMPERATURE => "temperature"
  | VOLATILE_ORGANIC_COMPOUNDS => "volatile_organic_compounds"
  | VOLTAGE => "voltage"
  end.

#[global] Instance SensorDeviceClass_StrEnum : StrEnum SensorDeviceClass.
Proof.
  refine {| value := SensorDeviceClass_value |}.
  intros a b; destruct a; destruct b; intros E;
    first [ reflexivity | discriminate E ].
Defined.

(** A device with an outdoor thermometer, a sensor entity that reports
    neither class nor unit, and a light. *)
Definition thermometer : RegistryEntry :=
  {| entity_id := "sensor.outdoor_temperature"; domain := "sensor" |}.
Definition bare_sensor : RegistryEntry :=
  {| entity_id := "sensor.uptime"; domain := "sensor" |}.
Definition porch_light : RegistryEntry :=
  {| entity_id := "light.porch"; domain := "light" |}.

Definition is_entity (v : Value) (entry : RegistryEntry) : bool :=
  match v with
  | VStr s => String.eqb s (entity_id entry)
  | _ => false
  end.

Definition demo_registry (entries : list RegistryEntry) : EntityRegistry :=
  {| async_entries_for_device := fun device_id =>
       if String.eqb device_id "weather-station" then entries else [] |}.

(** The host, given what the unit lookup yields for "sensor.uptime". *)
Definition demo_hass_unit (uptime_unit : option string)
    (entries : list RegistryEntry) : HomeAssistant :=
  {| async_get_registry := demo_registry entries;
     get_device_class := fun v =>
       if is_entity v thermometer then Return (Some "temperature")
       else if is_entity v bare_sensor then Return None
       else if is_entity v porch_light then Return (Some "illuminance")
       else Raise (HomeAssistantError "Unknown entity");
     get_unit_of_measurement := fun v =>
       if is_entity v thermometer then Return (Some "°C")
       else if is_entity v bare_sensor then Return uptime_unit
       else if is_entity v porch_light then Return (Some "lx")
       else Raise (HomeAssistantError "Unknown entity") |}.

Definition demo_hass : list RegistryEntry -> HomeAssistant :=
  demo_hass_unit None.

(** A stand-in for the base schema of device conditions and for the
    validation of a dictionary, used to run [CONDITION_SCHEMA] on examples:
    the dictionary passes unchanged when every key of it is a field of the
    schema and every required field is among its keys. *)
Definition demo_base_schema : Schema :=
  vol_Schema (marker_dict [
    ({| kind := Required; key := "condition"; description := None |},
     In ["device"]);
    ({| kind := Required; key := "device_id"; description := None |},
     Callable Return);
    ({| kind := Required; key := "domain"; description := None |},
     Callable Return)
  ]).

#[global] Instance MarkerKind_eq_dec : EqDecision MarkerKind.
Proof. solve_decision. Defined.

Definition required_keys (s : Schema) : gset string :=
  dom (filter (fun kv => kind (kv.2.1) = Required) (fields s)).

Definition demo_validate_mapping (s : Schema) (d : gmap string Value)
    : Result (gmap string Value) :=
  if decide (dom d ⊆ dom (fields s)) then
    if decide (required_keys s ⊆ dom d) then Return d
    else Raise (Invalid "required key not provided")
  else Raise (Invalid "extra keys not allowed").

Definition demo_config (entity type : string) (bounds : list (string * Value))
    : gmap string Value :=
  dict_literal ([
    ("condition", VStr "device");
    ("device_id", VStr "weather-station");
    ("domain", VStr "sensor");
    ("entity_id", VStr entity);
    ("type", VStr type)
  ] ++ bounds).

(** The host's numeric-state condition, reduced to what the examples need:
    a schema and a normaliser that pass the dictionary on, and a factory
    that hands the dictionary back as the checker. *)
Definition demo_numeric_state_validate_config (hass : HomeAssistant)
    (config : gmap string Value) : Result (gmap string Value) :=
  Return config.

(** * The demo device tracker

    [homeassistant/components/demo/device_tracker.py]: three sightings are
    reported through the [see] callback, two of them at a random offset
    from the configured position, and the randomising function is
    registered as a service. *)

(** ** Floats *)

(** Python floats are IEEE-754 binary64 numbers with round-to-nearest-even
    arithmetic.  An int operand is converted first; the conversion is exact
    below 2^53. *)
Definition int_to_float (z : Z) : spec_float := binary_normalize 53 1024 z 0 false.
Definition float_add : spec_float -> spec_float -> spec_float := SFadd 53 1024.
Definition float_sub : spec_float -> spec_float -> spec_float := SFsub 53 1024.
Definition float_mul : spec_float -> spec_float -> spec_float := SFmul 53 1024.
Definition float_truediv : spec_float -> spec_float -> spec_float := SFdiv 53 1024.

(** The literal [2e5] is the integer 200000, and the literal [0.00002] the
    double nearest to 2/100000. *)
Definition float_2e5 : spec_float := int_to_float 200000.
Definition float_0_00002 : spec_float :=
  float_truediv (int_to_float 2) (int_to_float 100000).

#[global] Instance spec_float_eq_dec : EqDecision spec_float.
Proof. solve_decision. Defined.

Module demo.

Local Open Scope Z_scope.

(** The [gps] argument is a tuple in one call and a list in the other. *)
Inductive Sequence : Type :=
| PyTuple (items : list spec_float)
| PyList (items : list spec_float).

(** The keyword arguments of one call of [see]. *)
Record SeeCall : Type := {
  dev_id : string;
  host_name : string;
  gps : Sequence;
  gps_accuracy : Z;
  battery : Z
}.

(** [hass.config], as far as the tracker reads it. *)
Record Config : Type := {
  latitude : spec_float;
  longitude : spec_float
}.

Section device_tracker.
(** The state of the [random] module with the two functions the tracker
    calls, the type of a service call, and the two names of
    [homeassistant.components.demo.const]. *)
Variable Random : Type.
Variable randrange : Z -> Z -> Random -> Z * Random.
Variable choice : list Z -> Random -> Z * Random.
Variable ServiceCall : Type.
Variable DOMAIN : string.
Variable SERVICE_RANDOMIZE_DEVICE_TRACKER_DATA : string.

(** What a call of the tracker's functions can change: the state of the
    random generator, and what [see] has been told. *)
Record Env : Type := {
  random : Random;
  seen : list SeeCall
}.

(** The host around it: the services registered so far, by domain and
    name. *)
Record World : Type := {
  env : Env;
  services : list (string * string * (option ServiceCall -> Env -> Env))
}.

(** A [see] callback that keeps what it is told, in order. *)
Definition record_see (call : SeeCall) (e : Env) : Env :=
  {| random := random e; seen := seen e ++ [call] |}.

(** [(random.randrange(500, 2000)) / 2e5 * random.choice((-1, 1))] *)
Definition offset (g : Random) : spec_float * Random :=
  let '(n, g) := randrange 500 2000 g in
  let quotient := float_truediv (int_to_float n) float_2e5 in
  let '(sign, g) := choice [-1; 1] g in
  (float_mul quotient (int_to_float sign), g).

Definition random_see (hass : Config) (see : SeeCall -> Env -> Env)
    (dev_id name : string) (e : Env) : Env :=
  let '(dlat, g) := offset (random e) in
  let '(dlon, g) := offset g in
  let '(accuracy, g) := randrange 50 150 g in
  let '(level, g) := randrange 10 90 g in
  see {| dev_id := dev_id;
         host_name := name;
         gps := PyTuple [float_add (latitude hass) dlat;
                         float_add (longitude hass) dlon];
         gps_accuracy := accuracy;
         battery := level |}
      {| random := g; seen := seen e |}.

Definition observe (hass : Config) (see : SeeCall -> Env -> Env)
    (call : option ServiceCall) (e : Env) : Env :=
  let e := random_see hass see "demo_paulus" "Paulus" e in
  random_see hass see "demo_anne_therese" "Anne Therese" e.

Definition setup_scanner (hass : Config) (config : gmap string Value)
    (see : SeeCall -> Env -> Env) (discovery_info : option (gmap string Value))
    (w : World) : bool * World :=
  let e := observe hass see None (env w) in
  let e :=
    see {| dev_id := "demo_home_boy";
           host_name := "Home Boy";
           gps := PyList [float_sub (latitude hass) float_0_00002;
                          float_add (longitude hass) float_0_00002];
           gps_accuracy := 20;
           battery := 53 |} e in
  let registered :=
    services w ++ [(DOMAIN, SERVICE_RANDOMIZE_DEVICE_TRACKER_DATA,
                    observe hass see)] in
  (true, {| env := e; services := registered |}).

End device_tracker.

Arguments random {Random} _.
Arguments seen {Random} _.
Arguments Build_Env {Random} _ _.
Arguments env {Random ServiceCall} _.
Arguments services {Random ServiceCall} _.
Arguments Build_World {Random ServiceCall} _ _.
Arguments record_see {Random} call e.

(** A generator for examples: a linear congruential state, reduced into
    the range asked for. *)
Definition lcg_next (g : Z) : Z := (g * 1103515245 + 12345) mod 2147483648.
Definition lcg_randrange (start stop : Z) (g : Z) : Z * Z :=
  (start + g mod (stop - start), lcg_next g).
Definition lcg_choice (items : list Z) (g : Z) : Z * Z :=
  (nth (Z.to_nat (g mod Z.of_nat (length items))) items 0, lcg_next g).

End demo.

(** * Properties *)

(** ** The result monad *)

Lemma bind_Return {A B} (a : A) (f : A -> Result B) : Return a ≫= f = f a.
Proof. reflexivity. Qed.

Lemma bind_Raise {A B} (e : Exception) (f : A -> Result B) :
  Raise e ≫= f = Raise e.
Proof. reflexivity. Qed.

Lemma bind_mret {A} (m : Result A) : (m ≫= fun a => mret a) = m.
Proof. by destruct m. Qed.

Lemma bind_assoc {A B C} (m : Result A) (f : A -> Result B) (g : B -> Result C) :
  (m ≫= f) ≫= g = m ≫= (fun a => f a ≫= g).
Proof. by destruct m. Qed.

Lemma Return_inj {A} (a b : A) : Return a = Return b -> a = b.
Proof. intros E. by injection E. Qed.

Lemma bind_inv_Return {A B} (m : Result A) (f : A -> Result B) b :
  m ≫= f = Return b -> exists a, m = Return a /\ f a = Return b.
Proof. destruct m as [a|e]; [by exists a | discriminate]. Qed.

(** ** Dictionaries *)

Lemma dict_literal_snoc {V} (items : list (string * V)) k v :
  dict_literal (items ++ [(k, v)]) = <[k := v]> (dict_literal items).
Proof. unfold dict_literal. by rewrite foldl_app. Qed.

Lemma truthy_false (u : option string) :
  truthy u = false <-> u = None \/ u = Some "".
Proof.
  destruct u as [s|]; simpl.
  - rewrite negb_false_iff, String.eqb_eq. split; [intros ->; by right|].
    intros [|[= ->]]; done.
  - split; [by left | done].
Qed.

Lemma truthy_true (u : option string) :
  truthy u = true <-> exists s, u = Some s /\ s <> "".
Proof.
  destruct u as [s|]; simpl.
  - rewrite negb_true_iff, String.eqb_neq. split; [by exists s|].
    by intros (? & [= <-] & ?).
  - split; [done | by intros (? & ? & ?)].
Qed.

(** ** The catalog builder *)

Section CatalogFacts.
Context `{StrEnum SensorDeviceClass}.
Implicit Types (hass : HomeAssistant) (entry : RegistryEntry).
Implicit Types (conditions : list (gmap string string)).

(** The fallback of the table lookup is always there: the last item of
    the display is stored under [DEVICE_CLASS_NONE]. *)
Lemma ENTITY_CONDITIONS_none :
  ENTITY_CONDITIONS !! DEVICE_CLASS_NONE
  = Some [ {[CONF_TYPE := CONF_IS_VALUE]} ].
Proof.
  unfold ENTITY_CONDITIONS, dict_literal. cbn [foldl fst snd].
  apply lookup_insert_eq.
Qed.

(** A turn of the loop only appends to the list built so far. *)
Lemma loop_body_acc hass device_id conditions entry :
  loop_body hass device_id conditions entry
  = (new ← loop_body hass device_id [] entry; mret (conditions ++ new)).
Proof.
  unfold loop_body.
  destruct (get_device_class hass _) as [dc|e]; [|done]. cbn.
  destruct (get_unit_of_measurement hass _) as [u|e]; [|done]. cbn.
  destruct (truthy u); cbn; [|by rewrite app_nil_r].
  by destruct (getitem ENTITY_CONDITIONS DEVICE_CLASS_NONE).
Qed.

Lemma for_entries_acc hass device_id entries conditions :
  for_entries hass device_id entries conditions
  = (out ← for_entries hass device_id entries []; mret (conditions ++ out)).
Proof.
  revert conditions. induction entries as [|entry rest IH]; intros conditions.
  - cbn. by rewrite app_nil_r.
  - cbn [for_entries]. rewrite loop_body_acc.
    destruct (loop_body hass device_id [] entry) as [new|e]; [|done].
    rewrite !bind_Return. cbn [mret Result_ret].
    rewrite (IH (conditions ++ new)), (IH new).
    destruct (for_entries hass device_id rest []) as [out|e]; [|done].
    cbn. by rewrite app_assoc.
Qed.

Lemma for_entries_app hass device_id entries1 entries2 conditions :
  for_entries hass device_id (entries1 ++ entries2) conditions
  = (conditions' ← for_entries hass device_id entries1 conditions;
     for_entries hass device_id entries2 conditions').
Proof.
  revert conditions. induction entries1 as [|entry rest IH]; intros conditions.
  - done.
  - cbn [for_entries app]. destruct (loop_body _ _ _ _) as [c|e]; [|done].
    rewrite !bind_Return. apply IH.
Qed.

(** An entity whose unit is false in a condition adds nothing. *)
Lemma loop_body_skip hass device_id conditions entry dc u :
  get_device_class hass (VStr (entity_id entry)) = Return dc ->
  get_unit_of_measurement hass (VStr (entity_id entry)) = Return u ->
  truthy u = false ->
  loop_body hass device_id conditions entry = Return conditions.
Proof.
  intros Hdc Hu Hfalse. unfold loop_body. rewrite Hdc, Hu. cbn.
  by rewrite Hfalse.
Qed.

Lemma for_entries_skip hass device_id before entry after conditions dc u :
  get_device_class hass (VStr (entity_id entry)) = Return dc ->
  get_unit_of_measurement hass (VStr (entity_id entry)) = Return u ->
  truthy u = false ->
  for_entries hass device_id (before ++ entry :: after) conditions
  = for_entries hass device_id (before ++ after) conditions.
Proof.
  intros Hdc Hu Hfalse. rewrite !for_entries_app.
  destruct (for_entries hass device_id before conditions) as [c|e]; [|done].
  rewrite !bind_Return. cbn [for_entries].
  by rewrite (loop_body_skip _ _ _ _ dc u).
Qed.

Lemma for_entries_all_skipped hass device_id entries conditions :
  (forall entry, entry ∈ entries ->
     (exists dc, get_device_class hass (VStr (entity_id entry)) = Return dc) /\
     (exists u, get_unit_of_measurement hass (VStr (entity_id entry)) = Return u
                /\ truthy u = false)) ->
  for_entries hass device_id entries conditions = Return conditions.
Proof.
  induction entries as [|entry rest IH]; intros Hall; [done|].
  destruct (Hall entry) as [[dc Hdc] (u & Hu & Hfalse)]; [left|].
  cbn [for_entries]. rewrite (loop_body_skip _ _ _ _ dc u) by done.
  rewrite bind_Return. apply IH. intros e He. apply Hall. by right.
Qed.

(** The loop raises only what a lookup raises: when the class and unit
    lookups return for every entry, so does the loop. *)
Lemma for_entries_returns hass device_id entries conditions :
  (forall entry, entry ∈ entries ->
     (exists dc, get_device_class hass (VStr (entity_id entry)) = Return dc) /\
     (exists u, get_unit_of_measurement hass (VStr (entity_id entry)) = Return u)) ->
  exists out, for_entries hass device_id entries conditions = Return out.
Proof.
  revert conditions. induction entries as [|entry rest IH]; intros conditions Hall.
  - by exists conditions.
  - destruct (Hall entry) as [[dc Hdc] [u Hu]]; [left|].
    cbn [for_entries]. unfold loop_body. rewrite Hdc, Hu, !bind_Return.
    unfold getitem. rewrite ENTITY_CONDITIONS_none.
    destruct (negb (truthy u)); rewrite ?bind_Return;
      apply IH; intros e He; apply Hall; by right.
Qed.

Lemma for_entries_cons hass device_id entry rest :
  for_entries hass device_id (entry :: rest) []
  = (new ← loop_body hass device_id [] entry;
     out ← for_entries hass device_id rest [];
     mret (new ++ out)).
Proof.
  cbn [for_entries].
  destruct (loop_body hass device_id [] entry) as [new|e]; [|done].
  rewrite !bind_Return. apply for_entries_acc.
Qed.

(** An entity with a unit adds the descriptors of its templates, in the
    order of the template list. *)
Lemma loop_body_emit hass device_id conditions entry dc u :
  get_device_class hass (VStr (entity_id entry)) = Return dc ->
  get_unit_of_measurement hass (VStr (entity_id entry)) = Return u ->
  truthy u = true ->
  loop_body hass device_id conditions entry
  = Return (conditions ++
            (descriptor device_id entry <$>
               dict_get ENTITY_CONDITIONS (py_or dc DEVICE_CLASS_NONE)
                        [ {[CONF_TYPE := CONF_IS_VALUE]} ])).
Proof.
  intros Hdc Hu Htrue. unfold loop_body. rewrite Hdc, Hu. cbn.
  rewrite Htrue. cbn. unfold getitem. by rewrite ENTITY_CONDITIONS_none.
Qed.

Lemma descriptor_lookup device_id entry template d :
  d = descriptor device_id entry template ->
  d !! "condition" = Some "device" /\
  d !! "device_id" = Some device_id /\
  d !! "entity_id" = Some (entity_id entry) /\
  d !! "domain" = Some DOMAIN /\
  (forall k, k ∉ ["condition"; "device_id"; "entity_id"; "domain"] ->
             d !! k = template !! k).
Proof.
  intros ->. unfold descriptor. repeat split.
  - rewrite !lookup_insert_ne by done. apply lookup_insert_eq.
  - rewrite !lookup_insert_ne by done. apply lookup_insert_eq.
  - rewrite !lookup_insert_ne by done. apply lookup_insert_eq.
  - apply lookup_insert_eq.
  - intros k Hk. rewrite !lookup_insert_ne; [done|..];
      intros <-; apply Hk; repeat constructor.
Qed.

(** Whatever a turn of the loop adds names the entry of that turn, and
    the entry has a unit that is true in a condition. *)
Lemma loop_body_elem hass device_id entry new d :
  loop_body hass device_id [] entry = Return new -> d ∈ new ->
  d !! "entity_id" = Some (entity_id entry) /\
  exists u, get_unit_of_measurement hass (VStr (entity_id entry)) = Return u
            /\ truthy u = true.
Proof.
  unfold loop_body.
  destruct (get_device_class hass _) as [dc|e]; [|done]. cbn.
  destruct (get_unit_of_measurement hass _) as [u|e]; [|done]. cbn.
  destruct (truthy u) eqn:Hu; cbn.
  - destruct (getitem ENTITY_CONDITIONS DEVICE_CLASS_NONE) as [fb|e]; [|done].
    cbn. intros <-%Return_inj Hd. apply list_elem_of_fmap in Hd as (t & -> & _).
    split; [|by exists u].
    by destruct (descriptor_lookup device_id entry t _ eq_refl) as (_ & _ & ? & _).
  - intros <-%Return_inj Hd. by apply elem_of_nil in Hd.
Qed.

Lemma for_entries_elem hass device_id entries out d :
  for_entries hass device_id entries [] = Return out -> d ∈ out ->
  exists entry, entry ∈ entries /\
    d !! "entity_id" = Some (entity_id entry) /\
    exists u, get_unit_of_measurement hass (VStr (entity_id entry)) = Return u
              /\ truthy u = true.
Proof.
  revert out. induction entries as [|entry rest IH]; intros out.
  - intros <-%Return_inj Hd. by apply elem_of_nil in Hd.
  - rewrite for_entries_cons. intros Hout.
    apply bind_inv_Return in Hout as (new & Hnew & Hout).
    apply bind_inv_Return in Hout as (out' & Hrest & <-%Return_inj).
    intros [Hd|Hd]%elem_of_app.
    + exists entry. split; [left|]. by eapply loop_body_elem.
    + destruct (IH _ Hrest Hd) as (e & He & ?). exists e. split; [by right|done].
Qed.

(** Two hosts whose lookups agree on an entry, or whose unit lookups both
    yield a unit that is false in a condition, take the same turn. *)
Lemma loop_body_ext hass1 hass2 device_id conditions entry :
  get_device_class hass1 (VStr (entity_id entry))
  = get_device_class hass2 (VStr (entity_id entry)) ->
  (get_unit_of_measurement hass1 (VStr (entity_id entry))
   = get_unit_of_measurement hass2 (VStr (entity_id entry))
   \/ exists u1 u2,
       get_unit_of_measurement hass1 (VStr (entity_id entry)) = Return u1 /\
       get_unit_of_measurement hass2 (VStr (entity_id entry)) = Return u2 /\
       truthy u1 = false /\ truthy u2 = false) ->
  loop_body hass1 device_id conditions entry
  = loop_body hass2 device_id conditions entry.
Proof.
  intros Hdc [Hu|(u1 & u2 & Hu1 & Hu2 & Hf1 & Hf2)]; unfold loop_body.
  - by rewrite Hdc, Hu.
  - rewrite Hdc, Hu1, Hu2.
    destruct (get_device_class hass2 _) as [dc|e]; [|done].
    cbn. by rewrite Hf1, Hf2.
Qed.

Lemma for_entries_ext hass1 hass2 device_id entries conditions :
  (forall entry, entry ∈ entries ->
     get_device_class hass1 (VStr (entity_id entry))
     = get_device_class hass2 (VStr (entity_id entry)) /\
     (get_unit_of_measurement hass1 (VStr (entity_id entry))
      = get_unit_of_measurement hass2 (VStr (entity_id entry))
      \/ exists u1 u2,
          get_unit_of_measurement hass1 (VStr (entity_id entry)) = Return u1 /\
          get_unit_of_measurement hass2 (VStr (entity_id entry)) = Return u2 /\
          truthy u1 = false /\ truthy u2 = false)) ->
  for_entries hass1 device_id entries conditions
  = for_entries hass2 device_id entries conditions.
Proof.
  revert conditions. induction entries as [|entry rest IH]; intros conditions Hall.
  - done.
  - cbn [for_entries].
    destruct (Hall entry) as [Hdc Hu]; [left|].
    rewrite (loop_body_ext hass1 hass2) by done.
    destruct (loop_body hass2 device_id conditions entry) as [c|e]; [|done].
    rewrite !bind_Return. apply IH. intros e He. apply Hall. by right.
Qed.

(** The entry the display registers for [TEMPERATURE]. *)
Lemma ENTITY_CONDITIONS_temperature :
  value TEMPERATURE <> DEVICE_CLASS_NONE ->
  ENTITY_CONDITIONS !! value TEMPERATURE
  = Some [ {[CONF_TYPE := CONF_IS_TEMPERATURE]} ].
Proof.
  intros Hnone. unfold ENTITY_CONDITIONS, dict_literal. cbn [foldl fst snd].
  rewrite lookup_insert_ne by done.
  rewrite !lookup_insert_ne by (intros E; apply value_inj in E; discriminate E).
  apply lookup_insert_eq.
Qed.

Local Abbreviation entries_of hass device_id :=
  (async_entries_for_device (async_get_registry hass) device_id).
Local Abbreviation sensor_entries hass device_id :=
  (filter (fun entry => domain entry = DOMAIN) (entries_of hass device_id)).

(** C5. An entity whose unit lookup yields no unit gets no descriptor,
    whatever device class its lookup yields: the catalog is the one the
    loop builds from the other entities, and no descriptor in it names the
    entity.  A device none of whose sensor entities has a unit (in
    particular a device without entities) gets the empty catalog, not an
    exception. *)
Theorem async_get_conditions_skips_unitless hass device_id :
  (forall before entry after dc,
      sensor_entries hass device_id = (before ++ entry :: after) ->
      get_device_class hass (VStr (entity_id entry)) = Return dc ->
      get_unit_of_measurement hass (VStr (entity_id entry)) = Return None ->
      async_get_conditions hass device_id
      = for_entries hass device_id (before ++ after) [])
  /\ (forall entry out d,
      get_unit_of_measurement hass (VStr (entity_id entry)) = Return None ->
      async_get_conditions hass device_id = Return out ->
      d ∈ out -> d !! "entity_id" <> Some (entity_id entry))
  /\ ((forall entry, entry ∈ sensor_entries hass device_id ->
         (exists dc, get_device_class hass (VStr (entity_id entry)) = Return dc)
         /\ get_unit_of_measurement hass (VStr (entity_id entry)) = Return None) ->
      async_get_conditions hass device_id = Return []).
Proof.
  unfold async_get_conditions. split; [|split].
  - intros before entry after dc -> Hdc Hu.
    by apply (for_entries_skip _ _ _ _ _ _ dc None).
  - intros entry out d Hu Hout Hd Heq.
    destruct (for_entries_elem _ _ _ _ _ Hout Hd) as (e & _ & He & u & Hu' & Htrue).
    rewrite Heq in He. injection He as He. rewrite He, Hu' in Hu.
    injection Hu as ->. discriminate Htrue.
  - intros Hall. apply for_entries_all_skipped. intros entry He.
    destruct (Hall entry He) as [Hdc Hu]. split; [done|]. by exists None.
Qed.

(** C9. Only the entries of the sensor domain are looked at: an entry of
    another domain leaves the catalog as the loop builds it from the
    sensor entries among the others, with no lookup made for it, and
    every descriptor names an entry of the device in the sensor domain. *)
Theorem async_get_conditions_sensor_domain_only hass device_id :
  (forall before entry after,
      entries_of hass device_id = (before ++ entry :: after) ->
      domain entry <> DOMAIN ->
      async_get_conditions hass device_id
      = for_entries hass device_id
          (filter (fun e => domain e = DOMAIN) (before ++ after)) [])
  /\ (forall out d,
      async_get_conditions hass device_id = Return out -> d ∈ out ->
      exists entry, entry ∈ entries_of hass device_id /\
        domain entry = DOMAIN /\
        d !! "entity_id" = Some (entity_id entry)).
Proof.
  unfold async_get_conditions. split.
  - intros before entry after -> Hdom.
    by rewrite !filter_app, filter_cons_False.
  - intros out d Hout Hd.
    destruct (for_entries_elem _ _ _ _ _ Hout Hd) as (e & He & Hid & _).
    apply list_elem_of_filter in He as [Hdom He]. by exists e.
Qed.

(** C2. A sensor entity with a unit (a non-empty string) gets, between
    what the entities before it and after it get, one descriptor per
    template of its device class: when the class (a non-empty string) is
    a key of [ENTITY_CONDITIONS], the templates registered under it, in
    their order, each with the condition kind "device", the device id,
    the entity id and the sensor domain put in and every other field,
    the type among them, as the template has it; when the class is
    missing from the table or the entity has none, the one "is_value"
    descriptor. *)
Theorem async_get_conditions_emits_templates
    hass device_id before entry after dc u out_before out_after :
  sensor_entries hass device_id = before ++ entry :: after ->
  get_device_class hass (VStr (entity_id entry)) = Return dc ->
  get_unit_of_measurement hass (VStr (entity_id entry)) = Return (Some u) ->
  u <> "" ->
  for_entries hass device_id before [] = Return out_before ->
  for_entries hass device_id after [] = Return out_after ->
  exists emitted,
    async_get_conditions hass device_id
    = Return (out_before ++ emitted ++ out_after)
    /\ (forall c templates,
          dc = Some c -> c <> "" ->
          ENTITY_CONDITIONS !! c = Some templates ->
          Forall2 (fun template d =>
                     d !! "condition" = Some "device" /\
                     d !! "device_id" = Some device_id /\
                     d !! "entity_id" = Some (entity_id entry) /\
                     d !! "domain" = Some DOMAIN /\
                     d !! CONF_TYPE = template !! CONF_TYPE /\
                     forall k,
                       k ∉ ["condition"; "device_id"; "entity_id"; "domain"] ->
                       d !! k = template !! k)
                  templates emitted)
    /\ (dc = None \/ dc = Some "" \/
         (exists c, dc = Some c /\ ENTITY_CONDITIONS !! c = None) ->
         emitted = [ {[ "domain" := DOMAIN;
                        "entity_id" := entity_id entry;
                        "device_id" := device_id;
                        "condition" := "device";
                        CONF_TYPE := CONF_IS_VALUE ]} ]).
Proof.
  intros Hsplit Hdc Hu Hne Hbefore Hafter.
  assert (Htrue : truthy (Some u) = true) by (apply truthy_true; eauto).
  exists (descriptor device_id entry <$>
            dict_get ENTITY_CONDITIONS (py_or dc DEVICE_CLASS_NONE)
                     [ {[CONF_TYPE := CONF_IS_VALUE]} ]).
  split; [|split].
  - unfold async_get_conditions. rewrite Hsplit, for_entries_app, Hbefore.
    rewrite bind_Return, for_entries_acc, for_entries_cons.
    rewrite (loop_body_emit _ _ _ _ dc (Some u)) by done.
    rewrite bind_Return, Hafter. reflexivity.
  - intros c templates -> Hc Hlookup.
    assert (py_or (Some c) DEVICE_CLASS_NONE = c) as ->.
    { unfold py_or. replace (truthy (Some c)) with true; [done|].
      symmetry. apply truthy_true. eauto. }
    unfold dict_get. rewrite Hlookup.
    apply Forall2_fmap_r, Forall_Forall2_diag, Forall_forall.
    intros template _.
    destruct (descriptor_lookup device_id entry template _ eq_refl)
      as (? & ? & ? & ? & Hother).
    repeat split; try done. apply Hother.
    unfold CONF_TYPE. rewrite !not_elem_of_cons. repeat split; try done.
    apply not_elem_of_nil.
  - assert (Hfallback : forall c,
               ENTITY_CONDITIONS !! c = None \/ c = DEVICE_CLASS_NONE ->
               descriptor device_id entry <$>
                 dict_get ENTITY_CONDITIONS c [ {[CONF_TYPE := CONF_IS_VALUE]} ]
               = [ descriptor device_id entry {[CONF_TYPE := CONF_IS_VALUE]} ]).
    { intros c [Hc| ->]; unfold dict_get.
      - by rewrite Hc.
      - by rewrite ENTITY_CONDITIONS_none. }
    intros [-> | [-> | (c & -> & Hc)]].
    + apply Hfallback. by right.
    + apply Hfallback. by right.
    + apply Hfallback. unfold py_or. destruct (truthy (Some c)); [by left|by right].
Qed.

(** C7. A device with two entities, the first a sensor classified
    "temperature" with unit "°C", the second without class and without
    unit, has a catalog of exactly one descriptor, of type
    "is_temperature", for the first entity. *)
Theorem async_get_conditions_temperature_only hass device_id first second :
  value TEMPERATURE = "temperature" ->
  entries_of hass device_id = [first; second] ->
  domain first = DOMAIN ->
  get_device_class hass (VStr (entity_id first)) = Return (Some "temperature") ->
  get_unit_of_measurement hass (VStr (entity_id first)) = Return (Some "°C") ->
  get_device_class hass (VStr (entity_id second)) = Return None ->
  get_unit_of_measurement hass (VStr (entity_id second)) = Return None ->
  async_get_conditions hass device_id
  = Return [ {[ "domain" := "sensor";
                "entity_id" := entity_id first;
                "device_id" := device_id;
                "condition" := "device";
                "type" := "is_temperature" ]} ].
Proof.
  intros Hvalue Hentries Hdom Hdc1 Hu1 Hdc2 Hu2.
  assert (Hfirst : loop_body hass device_id [] first
                   = Return [ descriptor device_id first
                                {[CONF_TYPE := CONF_IS_TEMPERATURE]} ]).
  { rewrite (loop_body_emit _ _ _ _ (Some "temperature") (Some "°C")) by done.
    unfold py_or, dict_get. cbn [truthy String.eqb Ascii.eqb negb].
    rewrite <- Hvalue, ENTITY_CONDITIONS_temperature; [done|].
    by rewrite Hvalue. }
  unfold async_get_conditions. rewrite Hentries.
  rewrite filter_cons_True by done.
  destruct (decide (domain second = DOMAIN)) as [Hsecond|Hsecond].
  - rewrite filter_cons_True, filter_nil by done.
    cbn [for_entries]. rewrite Hfirst, bind_Return.
    by rewrite (loop_body_skip _ _ _ _ None None).
  - rewrite filter_cons_False, filter_nil by done.
    cbn [for_entries]. by rewrite Hfirst.
Qed.

End CatalogFacts.

(** ** The capability builder *)

Lemma marker_dict_two m1 v1 m2 v2 :
  key m1 <> key m2 ->
  marker_dict [(m1, v1); (m2, v2)]
  = <[key m2 := (m2, v2)]> (<[key m1 := (m1, v1)]> ∅).
Proof.
  intros Hne. unfold marker_dict. cbn [foldl fst snd].
  rewrite lookup_empty. by rewrite lookup_insert_ne, lookup_empty.
Qed.

(** Without a unit that is true in a condition, whether the lookup yields
    none or raises a [HomeAssistantError], the builder raises, and the
    message is the same text for every configuration. *)
Lemma capabilities_no_unit hass config entity :
  config !! CONF_ENTITY_ID = Some entity ->
  (exists u, get_unit_of_measurement hass entity = Return u /\ truthy u = false)
  \/ (exists e, get_unit_of_measurement hass entity = Raise e
                /\ is_HomeAssistantError e = true) ->
  async_get_condition_capabilities hass config
  = Raise (InvalidDeviceAutomationConfig
      "No unit of measurement found for condition entity {config[CONF_ENTITY_ID]}").
Proof.
  intros Hentity Hunit. unfold async_get_condition_capabilities, getitem.
  rewrite Hentity, bind_Return.
  destruct Hunit as [(u & -> & Hfalse) | (e & -> & Hcatch)]; cbn.
  - destruct u as [s|]; [|done]. by rewrite Hfalse.
  - by rewrite Hcatch.
Qed.

(** C6. When the unit lookup for the configuration's entity yields a unit
    (a non-empty string), the builder returns a record whose "extra_fields"
    schema has exactly the two fields "above" and "below", each optional,
    each coerced to float, each described by that unit as its suffix. *)
Theorem async_get_condition_capabilities_fields hass config entity u :
  config !! CONF_ENTITY_ID = Some entity ->
  get_unit_of_measurement hass entity = Return (Some u) ->
  u <> "" ->
  exists schema,
    async_get_condition_capabilities hass config
    = Return {[ "extra_fields" := vol_Schema schema ]}
    /\ dom schema = {[ "above"; "below" ]}
    /\ schema !! "above"
       = Some ({| kind := Optional; key := "above";
                  description := Some {[ "suffix" := u ]} |}, Coerce py_float)
    /\ schema !! "below"
       = Some ({| kind := Optional; key := "below";
                  description := Some {[ "suffix" := u ]} |}, Coerce py_float).
Proof.
  intros Hentity Hunit Hne.
  assert (Htrue : truthy (Some u) = true) by (apply truthy_true; eauto).
  eexists. split; [|split; [|split]].
  - unfold async_get_condition_capabilities, getitem.
    rewrite Hentity, bind_Return, Hunit. cbn [try_except_HomeAssistantError].
    rewrite bind_Return, Htrue. cbn [negb].
    rewrite marker_dict_two by done. reflexivity.
  - cbn [key]. rewrite !dom_insert_L, dom_empty_L. unfold CONF_ABOVE, CONF_BELOW.
    set_solver.
  - cbn [key]. by rewrite lookup_insert_ne, lookup_insert_eq.
  - cbn [key]. by rewrite lookup_insert_eq.
Qed.

(** ** The condition compiler *)

Lemma contains_Some {V} (d : gmap string V) k v :
  d !! k = Some v -> contains d k = true.
Proof. intros Hk. unfold contains. apply bool_decide_eq_true_2. eauto. Qed.

Lemma contains_None {V} (d : gmap string V) k :
  d !! k = None -> contains d k = false.
Proof.
  intros Hk. unfold contains. apply bool_decide_eq_false_2.
  rewrite Hk. by intros [? ?].
Qed.

(** C3. From a configuration with an entity id, the compiler builds the
    dictionary that holds the condition kind "numeric_state", the same
    entity id, each of "above" and "below" exactly when the configuration
    has it and then with the configuration's value, and nothing else; that
    dictionary is what goes through the host's schema, normaliser and
    factory. *)
Theorem async_condition_from_config_bounds
    (ConditionCheckerType : Type)
    (NUMERIC_STATE_CONDITION_SCHEMA : gmap string Value -> Result (gmap string Value))
    (numeric_state_validate_config :
       HomeAssistant -> gmap string Value -> Result (gmap string Value))
    (async_numeric_state_from_config :
       gmap string Value -> Result ConditionCheckerType)
    hass (config : gmap string Value) entity :
  config !! CONF_ENTITY_ID = Some entity ->
  exists built : gmap string Value,
    numeric_state_config config = Return built
    /\ built !! "condition" = Some (VStr "numeric_state")
    /\ built !! "entity_id" = Some entity
    /\ built !! "above" = config !! "above"
    /\ built !! "below" = config !! "below"
    /\ (forall k, k ∉ ["condition"; "entity_id"; "above"; "below"] ->
                  built !! k = None)
    /\ async_condition_from_config ConditionCheckerType
         NUMERIC_STATE_CONDITION_SCHEMA numeric_state_validate_config
         async_numeric_state_from_config hass config
       = (validated ← NUMERIC_STATE_CONDITION_SCHEMA built;
          normalised ← numeric_state_validate_config hass validated;
          async_numeric_state_from_config normalised).
Proof.
  intros Hentity.
  assert (Hbuilt : exists built : gmap string Value,
             numeric_state_config config = Return built
             /\ forall k,
                  built !! k =
                  if decide (k = "below") then config !! "below"
                  else if decide (k = "above") then config !! "above"
                  else if decide (k = "entity_id") then Some entity
                  else if decide (k = "condition") then Some (VStr "numeric_state")
                  else None).
  { unfold numeric_state_config, getitem, dict_literal.
    rewrite Hentity, bind_Return. cbn [foldl fst snd].
    destruct (config !! CONF_ABOVE) as [above|] eqn:Habove;
      destruct (config !! CONF_BELOW) as [below|] eqn:Hbelow;
      rewrite ?(contains_Some _ _ _ Habove), ?(contains_None _ _ Habove),
              ?(contains_Some _ _ _ Hbelow), ?(contains_None _ _ Hbelow);
      rewrite ?bind_Return; cbn [mret Result_ret]; rewrite ?bind_Return;
      (eexists; split; [reflexivity|]); intros k;
      unfold CONF_ABOVE, CONF_BELOW, CONF_ENTITY_ID, CONF_CONDITION in *;
      rewrite ?Habove, ?Hbelow;
      repeat (case_decide; [subst k; rewrite ?lookup_insert_ne by done;
                            rewrite ?lookup_insert_eq; try done|]);
      rewrite ?lookup_insert_ne by done; try apply lookup_empty. }
  destruct Hbuilt as (built & Hbuilt & Hlookup).
  exists built. split; [done|].
  repeat split; try (rewrite Hlookup; done).
  - intros k Hk. rewrite Hlookup.
    repeat (case_decide; [subst k; exfalso; apply Hk; repeat constructor|]).
    done.
  - unfold async_condition_from_config. by rewrite Hbuilt.
Qed.

(** ** The schema of a condition configuration *)

Lemma has_at_least_one_key_inv keys (obj out : gmap string Value) :
  has_at_least_one_key keys obj = Return out ->
  out = obj /\ exists k, k ∈ keys /\ is_Some (obj !! k).
Proof.
  unfold has_at_least_one_key.
  destruct (existsb (contains obj) keys) eqn:Hex; [|discriminate].
  intros <-%Return_inj. split; [done|].
  apply existsb_exists in Hex as (k & Hin & Hk).
  exists k. split; [by apply list_elem_of_In|].
  unfold contains in Hk. by apply bool_decide_eq_true_1 in Hk.
Qed.

Lemma has_at_least_one_key_none keys (obj : gmap string Value) :
  (forall k, k ∈ keys -> obj !! k = None) ->
  exists msg, has_at_least_one_key keys obj = Raise (Invalid msg).
Proof.
  intros Hnone. unfold has_at_least_one_key.
  destruct (existsb (contains obj) keys) eqn:Hex; [|eauto].
  apply existsb_exists in Hex as (k & Hin & Hk).
  apply list_elem_of_In in Hin. unfold contains in Hk.
  apply bool_decide_eq_true_1 in Hk. rewrite (Hnone k Hin) in Hk.
  by destruct Hk.
Qed.

(** C4. Whatever the base schema and the validation of the fields, a
    configuration that [CONDITION_SCHEMA] accepts comes out with "above" or
    "below" in it; and as long as the validation of the fields puts neither
    key into its output unless the configuration had it, a configuration
    with neither bound is rejected. *)
Theorem CONDITION_SCHEMA_requires_bound
    (DEVICE_CONDITION_BASE_SCHEMA : Schema)
    (cv_entity_id : Value -> Result Value)
    (validate_mapping : Schema -> gmap string Value -> Result (gmap string Value))
    (config : gmap string Value) :
  (forall validated,
      CONDITION_SCHEMA DEVICE_CONDITION_BASE_SCHEMA cv_entity_id
                       validate_mapping config = Return validated ->
      is_Some (validated !! "above") \/ is_Some (validated !! "below"))
  /\ ((forall checked k,
         validate_mapping
           (CONDITION_FIELDS DEVICE_CONDITION_BASE_SCHEMA cv_entity_id) config
         = Return checked ->
         k ∈ ["below"; "above"] -> is_Some (checked !! k) -> is_Some (config !! k)) ->
      config !! "above" = None -> config !! "below" = None ->
      exists e,
        CONDITION_SCHEMA DEVICE_CONDITION_BASE_SCHEMA cv_entity_id
                         validate_mapping config = Raise e).
Proof.
  unfold CONDITION_SCHEMA, vol_All. cbn [foldl]. rewrite bind_Return.
  split.
  - intros validated Hok.
    apply bind_inv_Return in Hok as (checked & _ & Hkey).
    apply has_at_least_one_key_inv in Hkey as (-> & k & Hk & Hsome).
    apply elem_of_cons in Hk as [->|Hk]; [by right|].
    apply elem_of_cons in Hk as [->|Hk]; [by left|].
    by apply elem_of_nil in Hk.
  - intros Hfaithful Habove Hbelow.
    destruct (validate_mapping _ config) as [checked|e] eqn:Hchecked;
      [|by exists e].
    rewrite bind_Return.
    destruct (has_at_least_one_key_none [CONF_BELOW; CONF_ABOVE] checked)
      as [msg Hmsg]; [|by exists (Invalid msg)].
    intros k Hk. destruct (checked !! k) as [held|] eqn:Hlookup; [|done].
    destruct (Hfaithful checked k eq_refl Hk) as [given Hgiven]; [eauto|].
    unfold CONF_BELOW, CONF_ABOVE in Hk.
    apply elem_of_cons in Hk as [->|Hk]; [congruence|].
    apply elem_of_cons in Hk as [->|Hk]; [congruence|].
    by apply elem_of_nil in Hk.
Qed.

(** ** Same lookups, same results *)

Lemma capabilities_ext hass1 hass2 config :
  (forall entity, config !! CONF_ENTITY_ID = Some entity ->
     get_unit_of_measurement hass1 entity = get_unit_of_measurement hass2 entity
     \/ exists u1 u2,
         get_unit_of_measurement hass1 entity = Return u1 /\
         get_unit_of_measurement hass2 entity = Return u2 /\
         truthy u1 = false /\ truthy u2 = false) ->
  async_get_condition_capabilities hass1 config
  = async_get_condition_capabilities hass2 config.
Proof.
  intros Hagree.
  destruct (config !! CONF_ENTITY_ID) as [entity|] eqn:Hentity.
  - destruct (Hagree entity eq_refl) as [Hu|(u1 & u2 & Hu1 & Hu2 & Hf1 & Hf2)].
    + unfold async_get_condition_capabilities, getitem.
      by rewrite Hentity, !bind_Return, Hu.
    + rewrite (capabilities_no_unit hass1 config entity) by eauto.
      rewrite (capabilities_no_unit hass2 config entity) by eauto.
      done.
  - unfold async_get_condition_capabilities, getitem. by rewrite Hentity.
Qed.

Section Hyperproperties.
Context `{StrEnum SensorDeviceClass}.

(** C8. Each of the three operations gives the same result on two hosts
    whose lookups give the same results: the catalog builder when the
    registry lists the same entries for the device and the class and unit
    lookups agree on its sensor entries, the compiler when the host's
    normaliser agrees, the capability builder when the unit lookup agrees
    on the configuration's entity. *)
Theorem operations_deterministic
    (ConditionCheckerType : Type)
    (NUMERIC_STATE_CONDITION_SCHEMA :
       gmap string Value -> Result (gmap string Value))
    (numeric_state_validate_config :
       HomeAssistant -> gmap string Value -> Result (gmap string Value))
    (async_numeric_state_from_config :
       gmap string Value -> Result ConditionCheckerType)
    (hass1 hass2 : HomeAssistant) :
  (forall device_id,
      async_entries_for_device (async_get_registry hass1) device_id
      = async_entries_for_device (async_get_registry hass2) device_id ->
      (forall entry,
          entry ∈ async_entries_for_device (async_get_registry hass1) device_id ->
          domain entry = DOMAIN ->
          get_device_class hass1 (VStr (entity_id entry))
          = get_device_class hass2 (VStr (entity_id entry)) /\
          get_unit_of_measurement hass1 (VStr (entity_id entry))
          = get_unit_of_measurement hass2 (VStr (entity_id entry))) ->
      async_get_conditions hass1 device_id = async_get_conditions hass2 device_id)
  /\ (forall config,
      (forall c, numeric_state_validate_config hass1 c
                 = numeric_state_validate_config hass2 c) ->
      async_condition_from_config ConditionCheckerType
        NUMERIC_STATE_CONDITION_SCHEMA numeric_state_validate_config
        async_numeric_state_from_config hass1 config
      = async_condition_from_config ConditionCheckerType
          NUMERIC_STATE_CONDITION_SCHEMA numeric_state_validate_config
          async_numeric_state_from_config hass2 config)
  /\ (forall config,
      (forall entity, config !! CONF_ENTITY_ID = Some entity ->
         get_unit_of_measurement hass1 entity
         = get_unit_of_measurement hass2 entity) ->
      async_get_condition_capabilities hass1 config
      = async_get_condition_capabilities hass2 config).
Proof.
  split; [|split].
  - intros device_id Hentries Hlookups. unfold async_get_conditions.
    rewrite <- Hentries. apply for_entries_ext.
    intros entry [Hdom Hin]%list_elem_of_filter.
    destruct (Hlookups entry Hin Hdom) as [Hdc Hu]. split; [done|by left].
  - intros config Hnorm. unfold async_condition_from_config.
    destruct (numeric_state_config config) as [built|e]; [|done].
    rewrite !bind_Return.
    destruct (NUMERIC_STATE_CONDITION_SCHEMA built) as [validated|e]; [|done].
    by rewrite !bind_Return, Hnorm.
  - intros config Hunit. apply capabilities_ext.
    intros entity Hentity. left. by apply Hunit.
Qed.

(** C10. A unit lookup that yields the empty string is handled as one
    that yields no unit: the catalog builder skips the entity, the
    capability builder raises [InvalidDeviceAutomationConfig], and a host
    that yields no unit wherever this one yields the empty string cannot
    be told apart through either operation. *)
Theorem empty_unit_is_no_unit (hass : HomeAssistant) :
  (forall device_id before entry after dc,
      filter (fun e => domain e = DOMAIN)
             (async_entries_for_device (async_get_registry hass) device_id)
      = before ++ entry :: after ->
      get_device_class hass (VStr (entity_id entry)) = Return dc ->
      get_unit_of_measurement hass (VStr (entity_id entry)) = Return (Some "") ->
      async_get_conditions hass device_id
      = for_entries hass device_id (before ++ after) [])
  /\ (forall config entity,
      config !! CONF_ENTITY_ID = Some entity ->
      get_unit_of_measurement hass entity = Return (Some "") ->
      exists msg,
        async_get_condition_capabilities hass config
        = Raise (InvalidDeviceAutomationConfig msg))
  /\ (forall hass',
      async_get_registry hass' = async_get_registry hass ->
      (forall v, get_device_class hass' v = get_device_class hass v) ->
      (forall v,
          get_unit_of_measurement hass' v = get_unit_of_measurement hass v
          \/ (get_unit_of_measurement hass v = Return (Some "") /\
               get_unit_of_measurement hass' v = Return None)) ->
      (forall device_id,
          async_get_conditions hass device_id
          = async_get_conditions hass' device_id)
      /\ (forall config,
          async_get_condition_capabilities hass config
          = async_get_condition_capabilities hass' config)).
Proof.
  split; [|split].
  - intros device_id before entry after dc Hsplit Hdc Hu.
    unfold async_get_conditions. rewrite Hsplit.
    by apply (for_entries_skip _ _ _ _ _ _ dc (Some "")).
  - intros config entity Hentity Hu. eexists.
    apply (capabilities_no_unit hass config entity Hentity).
    left. by exists (Some "").
  - intros hass' Hregistry Hclass Hunit. split.
    + intros device_id. unfold async_get_conditions. rewrite Hregistry.
      apply for_entries_ext. intros entry _. split; [done|].
      destruct (Hunit (VStr (entity_id entry))) as [Heq|[Hempty Hnone]].
      * by left.
      * right. by exists (Some ""), None.
    + intros config. apply capabilities_ext. intros entity _.
      destruct (Hunit entity) as [Heq|[Hempty Hnone]].
      * by left.
      * right. by exists (Some ""), None.
Qed.

End Hyperproperties.

(** C1. The message of the error raised for an entity without a unit is a
    fixed text: the braces of the message are not a format field, and the
    entity id of the configuration does not occur in it.  Here on the
    sensor "sensor.uptime", whose unit lookup yields none, and on
    "sensor.missing", whose lookup raises a [HomeAssistantError]. *)
Theorem capabilities_message_leaves_entity_out :
  let hass := demo_hass [thermometer; bare_sensor; porch_light] in
  let message :=
    "No unit of measurement found for condition entity {config[CONF_ENTITY_ID]}" in
  get_unit_of_measurement hass (VStr "sensor.uptime") = Return None
  /\ async_get_condition_capabilities hass
       (demo_config "sensor.uptime" "is_value" [("above", VInt 3)])
     = Raise (InvalidDeviceAutomationConfig message)
  /\ String.index 0 "sensor.uptime" message = None
  /\ get_unit_of_measurement hass (VStr "sensor.missing")
     = Raise (HomeAssistantError "Unknown entity")
  /\ async_get_condition_capabilities hass
       (demo_config "sensor.missing" "is_value" [("above", VInt 3)])
     = Raise (InvalidDeviceAutomationConfig message)
  /\ String.index 0 "sensor.missing" message = None.
Proof. vm_compute. repeat split. Qed.

(** ** The statements at work on the weather station *)

Lemma async_get_conditions_emits_templates_witness :
  let hass := demo_hass [thermometer; bare_sensor; porch_light] in
  exists emitted,
    async_get_conditions hass "weather-station" = Return ([] ++ emitted ++ [])
    /\ (forall c templates,
          Some "temperature" = Some c -> c <> "" ->
          ENTITY_CONDITIONS !! c = Some templates ->
          Forall2 (fun template d =>
                     d !! "condition" = Some "device" /\
                     d !! "device_id" = Some "weather-station" /\
                     d !! "entity_id" = Some (entity_id thermometer) /\
                     d !! "domain" = Some DOMAIN /\
                     d !! CONF_TYPE = template !! CONF_TYPE /\
                     forall k,
                       k ∉ ["condition"; "device_id"; "entity_id"; "domain"] ->
                       d !! k = template !! k)
                  templates emitted)
    /\ (Some "temperature" = None \/ Some "temperature" = Some "" \/
         (exists c, Some "temperature" = Some c /\ ENTITY_CONDITIONS !! c = None) ->
         emitted = [ {[ "domain" := DOMAIN;
                        "entity_id" := entity_id thermometer;
                        "device_id" := "weather-station";
                        "condition" := "device";
                        CONF_TYPE := CONF_IS_VALUE ]} ]).
Proof.
  intros hass.
  apply (async_get_conditions_emits_templates hass "weather-station"
           [] thermometer [bare_sensor] (Some "temperature") "°C" [] []).
  - vm_compute. reflexivity.
  - vm_compute. reflexivity.
  - vm_compute. reflexivity.
  - discriminate.
  - vm_compute. reflexivity.
  - vm_compute. reflexivity.
Defined.

Lemma async_condition_from_config_bounds_witness :
  let config :=
    demo_config "sensor.outdoor_temperature" "is_temperature"
                [("above", VFloat (S754_finite false 43 (-1)))] in
  let hass := demo_hass [thermometer; bare_sensor; porch_light] in
  config !! CONF_ENTITY_ID = Some (VStr "sensor.outdoor_temperature")
  /\ exists built : gmap string Value,
      numeric_state_config config = Return built
      /\ built !! "condition" = Some (VStr "numeric_state")
      /\ built !! "entity_id" = Some (VStr "sensor.outdoor_temperature")
      /\ built !! "above" = config !! "above"
      /\ built !! "below" = config !! "below"
      /\ (forall k, k ∉ ["condition"; "entity_id"; "above"; "below"] ->
                    built !! k = None)
      /\ async_condition_from_config (gmap string Value)
           Return demo_numeric_state_validate_config Return hass config
         = (validated ← Return built;
            normalised ← demo_numeric_state_validate_config hass validated;
            Return normalised).
Proof.
  intros config hass.
  assert (Hentity : config !! CONF_ENTITY_ID
                    = Some (VStr "sensor.outdoor_temperature"))
    by (vm_compute; reflexivity).
  split; [exact Hentity|].
  exact (async_condition_from_config_bounds (gmap string Value)
           Return demo_numeric_state_validate_config Return hass config
           (VStr "sensor.outdoor_temperature") Hentity).
Defined.

Lemma CONDITION_SCHEMA_requires_bound_witness :
  let SCHEMA := CONDITION_SCHEMA demo_base_schema Return demo_validate_mapping in
  let unbounded := demo_config "sensor.outdoor_temperature" "is_temperature" [] in
  let bounded :=
    demo_config "sensor.outdoor_temperature" "is_temperature"
                [("below", VFloat (S754_finite false 43 (-1)))] in
  (unbounded !! "above" = None /\ unbounded !! "below" = None)
  /\ (exists e, SCHEMA unbounded = Raise e)
  /\ SCHEMA bounded = Return bounded
  /\ (is_Some (bounded !! "above") \/ is_Some (bounded !! "below")).
Proof.
  intros SCHEMA unbounded bounded.
  assert (Habove : unbounded !! "above" = None) by (vm_compute; reflexivity).
  assert (Hbelow : unbounded !! "below" = None) by (vm_compute; reflexivity).
  assert (Haccepted : SCHEMA bounded = Return bounded) by (vm_compute; reflexivity).
  split; [by split|]. split; [|split; [exact Haccepted|]].
  - refine (proj2 (CONDITION_SCHEMA_requires_bound demo_base_schema Return
                     demo_validate_mapping unbounded) _ Habove Hbelow).
    intros checked k Hchecked _ Hsome. unfold demo_validate_mapping in Hchecked.
    destruct (decide (_ ⊆ _)); [|discriminate Hchecked].
    destruct (decide (_ ⊆ _)); [|discriminate Hchecked].
    apply Return_inj in Hchecked. by rewrite Hchecked.
  - exact (proj1 (CONDITION_SCHEMA_requires_bound demo_base_schema Return
                    demo_validate_mapping bounded) bounded Haccepted).
Defined.

Lemma async_get_conditions_skips_unitless_witness :
  let hass := demo_hass [thermometer; bare_sensor; porch_light] in
  async_get_conditions hass "weather-station"
  = for_entries hass "weather-station" ([thermometer] ++ []) []
  /\ (forall out d,
        async_get_conditions hass "weather-station" = Return out ->
        d ∈ out -> d !! "entity_id" <> Some "sensor.uptime")
  /\ async_get_conditions (demo_hass [bare_sensor; porch_light]) "weather-station"
     = Return []
  /\ async_get_conditions hass "garden-shed" = Return [].
Proof.
  intros hass. split; [|split; [|split]].
  - apply (proj1 (async_get_conditions_skips_unitless hass "weather-station")
             [thermometer] bare_sensor [] None).
    + vm_compute. reflexivity.
    + vm_compute. reflexivity.
    + vm_compute. reflexivity.
  - intros out d.
    apply (proj1 (proj2 (async_get_conditions_skips_unitless
                           hass "weather-station")) bare_sensor out d).
    vm_compute. reflexivity.
  - apply (proj2 (proj2 (async_get_conditions_skips_unitless
                            (demo_hass [bare_sensor; porch_light])
                            "weather-station"))).
    intros entry Hin.
    assert (Hentry : entry = bare_sensor).
    { apply list_elem_of_filter in Hin as [Hdom Hin].
      apply elem_of_cons in Hin as [->|Hin]; [done|].
      apply elem_of_cons in Hin as [->|Hin]; [discriminate Hdom|].
      by apply elem_of_nil in Hin. }
    rewrite Hentry. split; [exists None|]; vm_compute; reflexivity.
  - apply (proj2 (proj2 (async_get_conditions_skips_unitless hass "garden-shed"))).
    intros entry Hin. apply list_elem_of_filter in Hin as [_ Hin].
    by apply elem_of_nil in Hin.
Defined.

Lemma async_get_condition_capabilities_fields_witness :
  let hass := demo_hass [thermometer; bare_sensor; porch_light] in
  let config :=
    demo_config "sensor.outdoor_temperature" "is_temperature"
                [("above", VFloat (S754_finite false 43 (-1)))] in
  get_unit_of_measurement hass (VStr "sensor.outdoor_temperature")
  = Return (Some "°C")
  /\ exists schema,
      async_get_condition_capabilities hass config
      = Return {[ "extra_fields" := vol_Schema schema ]}
      /\ dom schema = {[ "above"; "below" ]}
      /\ schema !! "above"
         = Some ({| kind := Optional; key := "above";
                    description := Some {[ "suffix" := "°C" ]} |}, Coerce py_float)
      /\ schema !! "below"
         = Some ({| kind := Optional; key := "below";
                    description := Some {[ "suffix" := "°C" ]} |}, Coerce py_float).
Proof.
  intros hass config.
  assert (Hunit : get_unit_of_measurement hass (VStr "sensor.outdoor_temperature")
                  = Return (Some "°C")) by (vm_compute; reflexivity).
  split; [exact Hunit|].
  apply (async_get_condition_capabilities_fields hass config
           (VStr "sensor.outdoor_temperature") "°C").
  - vm_compute. reflexivity.
  - exact Hunit.
  - discriminate.
Defined.

Lemma async_get_conditions_temperature_only_witness :
  async_get_conditions (demo_hass [thermometer; bare_sensor]) "weather-station"
  = Return [ {[ "domain" := "sensor";
                "entity_id" := "sensor.outdoor_temperature";
                "device_id" := "weather-station";
                "condition" := "device";
                "type" := "is_temperature" ]} ].
Proof.
  apply (async_get_conditions_temperature_only
           (demo_hass [thermometer; bare_sensor]) "weather-station"
           thermometer bare_sensor).
  - reflexivity.
  - vm_compute. reflexivity.
  - reflexivity.
  - vm_compute. reflexivity.
  - vm_compute. reflexivity.
  - vm_compute. reflexivity.
  - vm_compute. reflexivity.
Defined.

Lemma async_get_conditions_sensor_domain_only_witness :
  let hass := demo_hass [thermometer; porch_light; bare_sensor] in
  domain porch_light <> DOMAIN
  /\ get_unit_of_measurement hass (VStr (entity_id porch_light)) = Return (Some "lx")
  /\ async_get_conditions hass "weather-station"
     = for_entries hass "weather-station"
         (filter (fun e => domain e = DOMAIN) ([thermometer] ++ [bare_sensor])) []
  /\ (forall out d,
        async_get_conditions hass "weather-station" = Return out -> d ∈ out ->
        exists entry,
          entry ∈ [thermometer; porch_light; bare_sensor] /\
          domain entry = DOMAIN /\
          d !! "entity_id" = Some (entity_id entry)).
Proof.
  intros hass.
  assert (Hlight : domain porch_light <> DOMAIN) by discriminate.
  split; [exact Hlight|]. split; [vm_compute; reflexivity|]. split.
  - apply (proj1 (async_get_conditions_sensor_domain_only hass "weather-station")
             [thermometer] porch_light [bare_sensor]).
    + vm_compute. reflexivity.
    + exact Hlight.
  - exact (proj2 (async_get_conditions_sensor_domain_only hass "weather-station")).
Defined.

Lemma operations_deterministic_witness :
  let entries := [thermometer; bare_sensor; porch_light] in
  let hass1 := demo_hass entries in
  let hass2 :=
    {| async_get_registry := demo_registry entries;
       get_device_class := fun v =>
         if is_entity v porch_light then Return None
         else get_device_class hass1 v;
       get_unit_of_measurement := get_unit_of_measurement hass1 |} in
  let config :=
    demo_config "sensor.outdoor_temperature" "is_temperature"
                [("above", VFloat (S754_finite false 43 (-1)))] in
  async_get_conditions hass1 "weather-station"
  = async_get_conditions hass2 "weather-station"
  /\ async_condition_from_config (gmap string Value)
       Return demo_numeric_state_validate_config Return hass1 config
     = async_condition_from_config (gmap string Value)
         Return demo_numeric_state_validate_config Return hass2 config
  /\ async_get_condition_capabilities hass1 config
     = async_get_condition_capabilities hass2 config.
Proof.
  intros entries hass1 hass2 config.
  destruct (operations_deterministic (gmap string Value)
              Return demo_numeric_state_validate_config Return hass1 hass2)
    as (Hcatalog & Hcompiler & Hcapabilities).
  split; [|split].
  - apply Hcatalog; [reflexivity|].
    intros entry Hin Hdom.
    apply elem_of_cons in Hin as [->|Hin]; [split; reflexivity|].
    apply elem_of_cons in Hin as [->|Hin]; [split; reflexivity|].
    apply elem_of_cons in Hin as [->|Hin]; [discriminate Hdom|].
    by apply elem_of_nil in Hin.
  - apply Hcompiler. reflexivity.
  - apply Hcapabilities. reflexivity.
Defined.

Lemma empty_unit_is_no_unit_witness :
  let entries := [thermometer; bare_sensor; porch_light] in
  let hass := demo_hass_unit (Some "") entries in
  let hass' := demo_hass_unit None entries in
  get_unit_of_measurement hass (VStr "sensor.uptime") = Return (Some "")
  /\ async_get_conditions hass "weather-station"
     = for_entries hass "weather-station" ([thermometer] ++ []) []
  /\ (exists msg,
        async_get_condition_capabilities hass
          (demo_config "sensor.uptime" "is_value" [("below", VInt 90)])
        = Raise (InvalidDeviceAutomationConfig msg))
  /\ (forall device_id,
        async_get_conditions hass device_id = async_get_conditions hass' device_id)
  /\ (forall config,
        async_get_condition_capabilities hass config
        = async_get_condition_capabilities hass' config).
Proof.
  intros entries hass hass'.
  assert (Hempty : get_unit_of_measurement hass (VStr "sensor.uptime")
                   = Return (Some "")) by (vm_compute; reflexivity).
  destruct (empty_unit_is_no_unit hass) as (Hskip & Hraise & Hsame).
  split; [exact Hempty|]. split; [|split].
  - apply (Hskip "weather-station" [thermometer] bare_sensor [] None).
    + vm_compute. reflexivity.
    + vm_compute. reflexivity.
    + exact Hempty.
  - apply (Hraise _ (VStr "sensor.uptime")).
    + vm_compute. reflexivity.
    + exact Hempty.
  - apply (Hsame hass').
    + reflexivity.
    + intros v. reflexivity.
    + intros v. unfold hass, hass', demo_hass_unit. cbn [get_unit_of_measurement].
      destruct (is_entity v thermometer); [by left|].
      destruct (is_entity v bare_sensor); [by right|by left].
Defined.

(** * Further properties of the module *)

(** ** Dictionary displays *)

Lemma dict_literal_elem {V} (items : list (string * V)) k v :
  dict_literal items !! k = Some v -> (k, v) ∈ items.
Proof.
  induction items as [|[k' v'] items IH] using rev_ind.
  - unfold dict_literal. cbn. by rewrite lookup_empty.
  - rewrite dict_literal_snoc, lookup_insert. cbn [fst snd].
    case_decide as Hk.
    + intros Hv. assert (v' = v) as -> by congruence.
      subst k'. apply elem_of_app. right. left.
    + intros Hv. apply elem_of_app. left. by apply IH.
Qed.

(** ** The catalog and the schema *)

Local Abbreviation condition_types := [
  CONF_IS_APPARENT_POWER; CONF_IS_BATTERY_LEVEL; CONF_IS_CO; CONF_IS_CO2;
  CONF_IS_CURRENT; CONF_IS_ENERGY; CONF_IS_FREQUENCY; CONF_IS_GAS;
  CONF_IS_HUMIDITY; CONF_IS_ILLUMINANCE; CONF_IS_OZONE;
  CONF_IS_NITROGEN_DIOXIDE; CONF_IS_NITROGEN_MONOXIDE; CONF_IS_NITROUS_OXIDE;
  CONF_IS_POWER; CONF_IS_POWER_FACTOR; CONF_IS_PM1; CONF_IS_PM10; CONF_IS_PM25;
  CONF_IS_PRESSURE; CONF_IS_REACTIVE_POWER; CONF_IS_SIGNAL_STRENGTH;
  CONF_IS_SULPHUR_DIOXIDE; CONF_IS_TEMPERATURE;
  CONF_IS_VOLATILE_ORGANIC_COMPOUNDS; CONF_IS_VOLTAGE; CONF_IS_VALUE
].

(** The type field of the schema is the one the module writes, whatever the
    base schema holds under that key. *)
Lemma CONDITION_FIELDS_type base cv_entity_id :
  fields (CONDITION_FIELDS base cv_entity_id) !! CONF_TYPE
  = Some ({| kind := Required; key := CONF_TYPE; description := None |},
          In condition_types).
Proof.
  unfold CONDITION_FIELDS, extend. cbn [fields].
  apply lookup_union_Some_l. vm_compute. reflexivity.
Qed.

Section CatalogInvariants.
Context `{StrEnum SensorDeviceClass}.
Implicit Types (hass : HomeAssistant) (entry : RegistryEntry).

(** Every list of the table is one template, holding a type and nothing
    else, and the type is one the schema lists. *)
Lemma ENTITY_CONDITIONS_lists c templates :
  ENTITY_CONDITIONS !! c = Some templates ->
  exists t, templates = [ {[CONF_TYPE := t]} ] /\ t ∈ condition_types.
Proof.
  intros Hc. apply dict_literal_elem in Hc.
  repeat (apply elem_of_cons in Hc as [Hc|Hc];
          [apply (f_equal snd) in Hc; cbn [snd] in Hc; rewrite Hc;
           eexists; split; [reflexivity|];
           apply (bool_decide_unpack _); vm_compute; exact I|]).
  by apply elem_of_nil in Hc.
Qed.

(** What a turn of the loop can have done when it returns. *)
Lemma loop_body_inv hass device_id entry new :
  loop_body hass device_id [] entry = Return new ->
  exists dc u,
    get_device_class hass (VStr (entity_id entry)) = Return dc /\
    get_unit_of_measurement hass (VStr (entity_id entry)) = Return u /\
    ((truthy u = false /\ new = []) \/
     (truthy u = true /\
      exists t, t ∈ condition_types /\
                new = [ descriptor device_id entry {[CONF_TYPE := t]} ])).
Proof.
  intros Hnew.
  destruct (get_device_class hass (VStr (entity_id entry))) as [dc|e] eqn:Hdc;
    [|by unfold loop_body in Hnew; rewrite Hdc in Hnew].
  destruct (get_unit_of_measurement hass (VStr (entity_id entry))) as [u|e] eqn:Hu;
    [|by unfold loop_body in Hnew; rewrite Hdc, Hu in Hnew].
  exists dc, u. split; [done|]. split; [done|].
  destruct (truthy u) eqn:Htruthy.
  - right. split; [done|].
    rewrite (loop_body_emit _ _ _ _ dc u) in Hnew by done.
    apply Return_inj in Hnew. rewrite <- Hnew. cbn [app]. unfold dict_get.
    destruct (ENTITY_CONDITIONS !! py_or dc DEVICE_CLASS_NONE)
      as [templates|] eqn:Hlookup.
    + destruct (ENTITY_CONDITIONS_lists _ _ Hlookup) as (t & -> & Ht).
      by exists t.
    + exists CONF_IS_VALUE. split; [|done].
      apply (bool_decide_unpack _). vm_compute. exact I.
  - left. split; [done|].
    rewrite (loop_body_skip _ _ _ _ dc u) in Hnew by done.
    by apply Return_inj in Hnew.
Qed.

(** Every descriptor of a catalog is a one-type template filled in for an
    entry the loop went through, and that entry has a unit. *)
Lemma for_entries_descriptor hass device_id entries out d :
  for_entries hass device_id entries [] = Return out -> d ∈ out ->
  exists entry t u,
    entry ∈ entries /\ t ∈ condition_types /\
    d = descriptor device_id entry {[CONF_TYPE := t]} /\
    get_unit_of_measurement hass (VStr (entity_id entry)) = Return u /\
    truthy u = true.
Proof.
  revert out. induction entries as [|entry rest IH]; intros out.
  - intros <-%Return_inj Hd. by apply elem_of_nil in Hd.
  - rewrite for_entries_cons. intros Hout.
    apply bind_inv_Return in Hout as (new & Hnew & Hout).
    apply bind_inv_Return in Hout as (out' & Hrest & <-%Return_inj).
    intros [Hd|Hd]%elem_of_app.
    + apply loop_body_inv in Hnew
        as (dc & u & _ & Hu & [[_ ->]|(Htrue & t & Ht & ->)]).
      * by apply elem_of_nil in Hd.
      * apply list_elem_of_singleton in Hd as ->.
        exists entry, t, u. split; [left|done].
    + destruct (IH _ Hrest Hd) as (e & t & u & He & Hrest').
      exists e, t, u. split; [by right|done].
Qed.

Lemma descriptor_dom device_id entry t :
  dom (descriptor device_id entry {[CONF_TYPE := t]})
  = {[ "type"; "condition"; "device_id"; "entity_id"; "domain" ]}.
Proof.
  unfold descriptor. rewrite !dom_insert_L, dom_singleton_L.
  unfold CONF_TYPE. set_solver.
Qed.

Lemma descriptor_type device_id entry t :
  descriptor device_id entry {[CONF_TYPE := t]} !! CONF_TYPE = Some t.
Proof.
  unfold descriptor. rewrite !lookup_insert_ne by done.
  apply lookup_singleton_eq.
Qed.

Local Abbreviation entries_of hass device_id :=
  (async_entries_for_device (async_get_registry hass) device_id).
Local Abbreviation sensor_entries hass device_id :=
  (filter (fun entry => domain entry = DOMAIN) (entries_of hass device_id)).
Local Abbreviation has_unit hass entry :=
  (Is_true match get_unit_of_measurement hass (VStr (entity_id entry)) with
           | Return u => truthy u
           | Raise _ => false
           end).

(** X1. The type of every descriptor in a catalog is one of the types the
    required "type" field of [CONDITION_SCHEMA] admits, whatever the base
    schema is: what the catalog offers, the schema does not turn down for
    its type. *)
Theorem catalog_types_admitted_by_schema
    (base : Schema) (cv_entity_id : Value -> Result Value)
    hass device_id out d :
  async_get_conditions hass device_id = Return out ->
  d ∈ out ->
  exists t marker admitted,
    d !! CONF_TYPE = Some t /\
    fields (CONDITION_FIELDS base cv_entity_id) !! CONF_TYPE
    = Some (marker, In admitted) /\
    kind marker = Required /\
    t ∈ admitted.
Proof.
  intros Hout Hd.
  destruct (for_entries_descriptor _ _ _ _ _ Hout Hd)
    as (entry & t & u & _ & Ht & -> & _).
  eexists t, _, _. split; [apply descriptor_type|].
  split; [apply CONDITION_FIELDS_type|]. split; [reflexivity|exact Ht].
Qed.

(** X2. Every descriptor of a catalog has exactly the five fields "type",
    "condition", "device_id", "entity_id" and "domain"; its condition is
    "device", its device id the one asked for, its domain the sensor
    domain. *)
Theorem catalog_descriptor_fields hass device_id out d :
  async_get_conditions hass device_id = Return out ->
  d ∈ out ->
  dom d = {[ "type"; "condition"; "device_id"; "entity_id"; "domain" ]}
  /\ d !! "condition" = Some "device"
  /\ d !! "device_id" = Some device_id
  /\ d !! "domain" = Some "sensor".
Proof.
  intros Hout Hd.
  destruct (for_entries_descriptor _ _ _ _ _ Hout Hd)
    as (entry & t & u & _ & _ & -> & _).
  split; [apply descriptor_dom|].
  by destruct (descriptor_lookup device_id entry {[CONF_TYPE := t]} _ eq_refl)
    as (? & ? & _ & ? & _).
Qed.

Lemma for_entries_entity_ids hass device_id entries out :
  for_entries hass device_id entries [] = Return out ->
  (fun d : gmap string string => d !! "entity_id") <$> out
  = (fun entry => Some (entity_id entry))
      <$> filter (fun entry => has_unit hass entry) entries.
Proof.
  revert out. induction entries as [|entry rest IH]; intros out.
  - by intros <-%Return_inj.
  - rewrite for_entries_cons. intros Hout.
    apply bind_inv_Return in Hout as (new & Hnew & Hout).
    apply bind_inv_Return in Hout as (out' & Hrest & <-%Return_inj).
    rewrite fmap_app, (IH _ Hrest).
    apply loop_body_inv in Hnew
      as (dc & u & _ & Hu & [[Hfalse ->]|(Htrue & t & _ & ->)]).
    + rewrite filter_cons_False; [done|]. cbn beta. rewrite Hu, Hfalse.
      intros Hf. exact Hf.
    + rewrite filter_cons_True by (cbn beta; rewrite Hu, Htrue; exact I).
      reflexivity.
Qed.

(** X3. A catalog has one descriptor for each sensor entity of the device
    whose unit lookup yields a non-empty unit, and no other, in the order
    of the registry: the entity ids of its descriptors are the entity ids
    of those entries. *)
Theorem catalog_one_descriptor_per_measured_entity hass device_id out :
  async_get_conditions hass device_id = Return out ->
  (fun d : gmap string string => d !! "entity_id") <$> out
  = (fun entry => Some (entity_id entry))
      <$> filter (fun entry => has_unit hass entry)
                 (sensor_entries hass device_id).
Proof. apply for_entries_entity_ids. Qed.

Lemma for_entries_Return_inv hass device_id entries conditions out :
  for_entries hass device_id entries conditions = Return out ->
  forall entry, entry ∈ entries ->
    (exists dc, get_device_class hass (VStr (entity_id entry)) = Return dc) /\
    (exists u, get_unit_of_measurement hass (VStr (entity_id entry)) = Return u).
Proof.
  revert conditions. induction entries as [|first rest IH]; intros conditions Hout.
  - intros entry Hin. by apply elem_of_nil in Hin.
  - cbn [for_entries] in Hout. rewrite loop_body_acc in Hout.
    apply bind_inv_Return in Hout as (conditions' & Hfirst & Hrest).
    apply bind_inv_Return in Hfirst as (new & Hnew & _).
    apply loop_body_inv in Hnew as (dc & u & Hdc & Hu & _).
    intros entry [->|Hin]%elem_of_cons; [by eauto|].
    by apply (IH _ Hrest).
Qed.

(** X4. The catalog builder returns exactly when the class lookup and the
    unit lookup return for every sensor entity of the device; otherwise it
    raises what the first failing lookup raised, and what earlier entities
    gave is lost.  Nothing is caught here, unlike in the capability
    builder. *)
Theorem catalog_returns_iff_lookups_return hass device_id :
  ((exists out, async_get_conditions hass device_id = Return out) <->
   (forall entry, entry ∈ sensor_entries hass device_id ->
      (exists dc, get_device_class hass (VStr (entity_id entry)) = Return dc) /\
      (exists u, get_unit_of_measurement hass (VStr (entity_id entry)) = Return u)))
  /\ (forall before entry after out_before e,
        sensor_entries hass device_id = before ++ entry :: after ->
        for_entries hass device_id before [] = Return out_before ->
        get_device_class hass (VStr (entity_id entry)) = Raise e \/
        ((exists dc, get_device_class hass (VStr (entity_id entry)) = Return dc) /\
         get_unit_of_measurement hass (VStr (entity_id entry)) = Raise e) ->
        async_get_conditions hass device_id = Raise e).
Proof.
  unfold async_get_conditions. split; [split|].
  - intros [out Hout]. by eapply for_entries_Return_inv.
  - apply for_entries_returns.
  - intros before entry after out_before e -> Hbefore Hraise.
    rewrite for_entries_app, Hbefore, bind_Return. cbn [for_entries].
    unfold loop_body.
    destruct Hraise as [-> | [[dc ->] ->]]; reflexivity.
Qed.

End CatalogInvariants.

(** ** Errors of the capability builder and of the compiler *)

(** X5. The capability builder turns only a [HomeAssistantError] of the
    unit lookup into its own error: a configuration without an entity id
    raises [KeyError], and any other exception of the lookup comes out as
    it was raised. *)
Theorem capabilities_other_errors_propagate hass (config : gmap string Value) :
  (config !! CONF_ENTITY_ID = None ->
   async_get_condition_capabilities hass config = Raise (KeyError "entity_id"))
  /\ (forall entity e,
        config !! CONF_ENTITY_ID = Some entity ->
        get_unit_of_measurement hass entity = Raise e ->
        is_HomeAssistantError e = false ->
        async_get_condition_capabilities hass config = Raise e).
Proof.
  split.
  - intros Hmissing. unfold async_get_condition_capabilities, getitem.
    by rewrite Hmissing.
  - intros entity e Hentity Hraise Hother.
    unfold async_get_condition_capabilities, getitem.
    rewrite Hentity, bind_Return, Hraise. cbn [try_except_HomeAssistantError].
    by rewrite Hother.
Qed.

(** X6. Without an entity id the compiler raises [KeyError] before the host
    is asked anything: the result is the same for every host schema,
    normaliser and factory, with or without bounds in the configuration. *)
Theorem compiler_missing_entity_id
    (ConditionCheckerType : Type)
    (NUMERIC_STATE_CONDITION_SCHEMA : gmap string Value -> Result (gmap string Value))
    (numeric_state_validate_config :
       HomeAssistant -> gmap string Value -> Result (gmap string Value))
    (async_numeric_state_from_config :
       gmap string Value -> Result ConditionCheckerType)
    hass (config : gmap string Value) :
  config !! CONF_ENTITY_ID = None ->
  async_condition_from_config ConditionCheckerType
    NUMERIC_STATE_CONDITION_SCHEMA numeric_state_validate_config
    async_numeric_state_from_config hass config
  = Raise (KeyError "entity_id").
Proof.
  intros Hmissing.
  unfold async_condition_from_config, numeric_state_config, getitem.
  by rewrite Hmissing.
Qed.

(** The dictionary the compiler builds, key by key. *)
Lemma numeric_state_config_lookup (config : gmap string Value) entity :
  config !! CONF_ENTITY_ID = Some entity ->
  exists built : gmap string Value,
    numeric_state_config config = Return built
    /\ forall k,
         built !! k =
         if decide (k = "below") then config !! "below"
         else if decide (k = "above") then config !! "above"
         else if decide (k = "entity_id") then Some entity
         else if decide (k = "condition") then Some (VStr "numeric_state")
         else None.
Proof.
  intros Hentity. unfold numeric_state_config, getitem, dict_literal.
  rewrite Hentity, bind_Return. cbn [foldl fst snd].
  destruct (config !! CONF_ABOVE) as [above|] eqn:Habove;
    destruct (config !! CONF_BELOW) as [below|] eqn:Hbelow;
    rewrite ?(contains_Some _ _ _ Habove), ?(contains_None _ _ Habove),
            ?(contains_Some _ _ _ Hbelow), ?(contains_None _ _ Hbelow);
    rewrite ?bind_Return; cbn [mret Result_ret]; rewrite ?bind_Return;
    (eexists; split; [reflexivity|]); intros k;
    unfold CONF_ABOVE, CONF_BELOW, CONF_ENTITY_ID, CONF_CONDITION in *;
    rewrite ?Habove, ?Hbelow;
    repeat (case_decide; [subst k; rewrite ?lookup_insert_ne by done;
                          rewrite ?lookup_insert_eq; try done|]);
    rewrite ?lookup_insert_ne by done; try apply lookup_empty.
Qed.

(** X7. What the compiler builds depends on the entity id and the two
    bounds of the configuration and on nothing else: two configurations
    that agree on these three keys, whatever their condition type, device
    id or other keys, are compiled to the same numeric-state
    configuration and so to the same checker. *)
Theorem compiler_reads_entity_and_bounds_only
    (ConditionCheckerType : Type)
    (NUMERIC_STATE_CONDITION_SCHEMA : gmap string Value -> Result (gmap string Value))
    (numeric_state_validate_config :
       HomeAssistant -> gmap string Value -> Result (gmap string Value))
    (async_numeric_state_from_config :
       gmap string Value -> Result ConditionCheckerType)
    hass (config1 config2 : gmap string Value) :
  config1 !! "entity_id" = config2 !! "entity_id" ->
  config1 !! "above" = config2 !! "above" ->
  config1 !! "below" = config2 !! "below" ->
  numeric_state_config config1 = numeric_state_config config2
  /\ async_condition_from_config ConditionCheckerType
       NUMERIC_STATE_CONDITION_SCHEMA numeric_state_validate_config
       async_numeric_state_from_config hass config1
     = async_condition_from_config ConditionCheckerType
         NUMERIC_STATE_CONDITION_SCHEMA numeric_state_validate_config
         async_numeric_state_from_config hass config2.
Proof.
  intros Hentity Habove Hbelow.
  assert (Hsame : numeric_state_config config1 = numeric_state_config config2).
  { destruct (config1 !! "entity_id") as [entity|] eqn:H1.
    - destruct (numeric_state_config_lookup config1 entity H1)
        as (built1 & -> & Hlookup1).
      destruct (numeric_state_config_lookup config2 entity (eq_sym Hentity))
        as (built2 & -> & Hlookup2).
      f_equal. apply map_eq. intros k.
      by rewrite Hlookup1, Hlookup2, Habove, Hbelow.
    - unfold numeric_state_config, getitem, CONF_ENTITY_ID.
      by rewrite H1, <- Hentity. }
  split; [exact Hsame|].
  unfold async_condition_from_config. by rewrite Hsame.
Qed.

(** With a unit that is true in a condition the capability builder
    returns, and the suffix of both fields is that unit. *)
Lemma capabilities_with_unit hass (config : gmap string Value) entity u :
  config !! CONF_ENTITY_ID = Some entity ->
  get_unit_of_measurement hass entity = Return (Some u) ->
  truthy (Some u) = true ->
  async_get_condition_capabilities hass config
  = Return {[ "extra_fields" :=
      vol_Schema
        (<["below" := ({| kind := Optional; key := "below";
                          description := Some {[ "suffix" := u ]} |},
                       Coerce py_float)]>
           (<["above" := ({| kind := Optional; key := "above";
                             description := Some {[ "suffix" := u ]} |},
                          Coerce py_float)]> ∅)) ]}.
Proof.
  intros Hentity Hunit Htrue.
  unfold async_get_condition_capabilities, getitem.
  rewrite Hentity, bind_Return, Hunit. cbn [try_except_HomeAssistantError].
  rewrite bind_Return, Htrue. cbn [negb].
  by rewrite marker_dict_two.
Qed.

Section CatalogComposition.
Context `{StrEnum SensorDeviceClass}.

(** X8. Every condition a catalog lists can be configured: for a
    configuration that names the entity of a listed descriptor, the
    capability builder does not raise, and the suffix of its two fields is
    the unit the lookup yields for that entity. *)
Theorem listed_condition_has_capabilities
    hass device_id out d (config : gmap string Value) :
  async_get_conditions hass device_id = Return out ->
  d ∈ out ->
  config !! CONF_ENTITY_ID = VStr <$> d !! "entity_id" ->
  exists entity u capabilities above below,
    d !! "entity_id" = Some entity /\
    get_unit_of_measurement hass (VStr entity) = Return (Some u) /\
    async_get_condition_capabilities hass config
    = Return {[ "extra_fields" := vol_Schema capabilities ]} /\
    capabilities !! "above" = Some (above, Coerce py_float) /\
    capabilities !! "below" = Some (below, Coerce py_float) /\
    description above = Some {[ "suffix" := u ]} /\
    description below = Some {[ "suffix" := u ]}.
Proof.
  intros Hout Hd Hconfig.
  destruct (for_entries_descriptor _ _ _ _ _ Hout Hd)
    as (entry & t & u & _ & _ & -> & Hu & Htrue).
  destruct (descriptor_lookup device_id entry {[CONF_TYPE := t]} _ eq_refl)
    as (_ & _ & Hid & _).
  rewrite Hid in Hconfig. cbn [fmap option_fmap option_map] in Hconfig.
  destruct u as [u|]; [|discriminate Htrue].
  eexists (entity_id entry), u, _, _, _.
  split; [exact Hid|]. split; [exact Hu|].
  split; [by apply (capabilities_with_unit hass config (VStr (entity_id entry)) u)|].
  split; [by rewrite lookup_insert_ne, lookup_insert_eq|].
  split; [by rewrite lookup_insert_eq|]. by split.
Qed.

(** X9. A listed descriptor completed with bounds compiles to a check on
    the descriptor's own entity: the numeric-state configuration built
    from it holds that entity id and the kind "numeric_state", and none of
    the descriptor's "type", "device_id" and "domain". *)
Theorem listed_condition_compiles_for_its_entity
    hass device_id out d (config : gmap string Value) :
  async_get_conditions hass device_id = Return out ->
  d ∈ out ->
  config !! CONF_ENTITY_ID = VStr <$> d !! "entity_id" ->
  exists (entry : RegistryEntry) (built : gmap string Value),
    entry ∈ async_entries_for_device (async_get_registry hass) device_id /\
    domain entry = DOMAIN /\
    numeric_state_config config = Return built /\
    built !! "entity_id" = Some (VStr (entity_id entry)) /\
    built !! "condition" = Some (VStr "numeric_state") /\
    built !! "above" = config !! "above" /\
    built !! "below" = config !! "below" /\
    built !! "type" = None /\
    built !! "device_id" = None /\
    built !! "domain" = None.
Proof.
  intros Hout Hd Hconfig.
  destruct (for_entries_descriptor _ _ _ _ _ Hout Hd)
    as (entry & t & u & [Hdom Hentry]%list_elem_of_filter & _ & -> & _).
  destruct (descriptor_lookup device_id entry {[CONF_TYPE := t]} _ eq_refl)
    as (_ & _ & Hid & _).
  rewrite Hid in Hconfig. cbn [fmap option_fmap option_map] in Hconfig.
  destruct (numeric_state_config_lookup config _ Hconfig)
    as (built & Hbuilt & Hlookup).
  exists entry, built. repeat split; try done; by rewrite Hlookup.
Qed.

End CatalogComposition.

(** ** A display without repeated keys *)

Lemma dict_literal_fresh {V} (items : list (string * V)) k :
  k ∉ items.*1 -> dict_literal items !! k = None.
Proof.
  intros Hfresh. destruct (dict_literal items !! k) as [v|] eqn:Hk; [|done].
  apply dict_literal_elem in Hk. exfalso. apply Hfresh.
  apply list_elem_of_fmap. by exists (k, v).
Qed.

Lemma dict_literal_lookup_NoDup {V} (items : list (string * V)) k v :
  NoDup items.*1 -> (k, v) ∈ items -> dict_literal items !! k = Some v.
Proof.
  induction items as [|[k' v'] items IH] using rev_ind.
  - intros _ Hin. by apply elem_of_nil in Hin.
  - rewrite fmap_app, NoDup_app. cbn [fmap list_fmap fst].
    intros (Hitems & Hdisjoint & _) Hin.
    rewrite dict_literal_snoc, lookup_insert. case_decide as Hk.
    + subst k'. apply elem_of_app in Hin as [Hin|Hin].
      * exfalso. apply (Hdisjoint k); [|left].
        apply list_elem_of_fmap. by exists (k, v).
      * apply list_elem_of_singleton in Hin. congruence.
    + apply elem_of_app in Hin as [Hin|Hin]; [by apply IH|].
      apply list_elem_of_singleton in Hin. congruence.
Qed.

Lemma dict_literal_size_NoDup {V} (items : list (string * V)) :
  NoDup items.*1 -> size (dict_literal items) = length items.
Proof.
  induction items as [|[k v] items IH] using rev_ind.
  - intros _. unfold dict_literal. cbn. apply map_size_empty.
  - rewrite fmap_app, NoDup_app. cbn [fmap list_fmap fst].
    intros (Hitems & Hdisjoint & _).
    rewrite dict_literal_snoc, length_app, map_size_insert_None.
    + rewrite IH by done. cbn. lia.
    + apply dict_literal_fresh. intros Hin. apply (Hdisjoint k Hin). left.
Qed.

Section TableComplete.
Context `{StrEnum SensorDeviceClass}.

(** X10. When no member of [SensorDeviceClass] has the value "none", no
    item of the [ENTITY_CONDITIONS] display replaces another: the table
    has its 27 entries, and every type that the "type" field of
    [CONDITION_SCHEMA] admits is the type of the template of some class. *)
Theorem ENTITY_CONDITIONS_keeps_every_item
    (base : Schema) (cv_entity_id : Value -> Result Value) :
  (forall member, value member <> DEVICE_CLASS_NONE) ->
  size ENTITY_CONDITIONS = 27
  /\ (forall marker admitted t,
        fields (CONDITION_FIELDS base cv_entity_id) !! CONF_TYPE
        = Some (marker, In admitted) ->
        t ∈ admitted ->
        exists c, ENTITY_CONDITIONS !! c = Some [ {[CONF_TYPE := t]} ]).
Proof.
  intros Hnone.
  assert (Hne : forall a b : SensorDeviceClass, a <> b -> value a <> value b)
    by (intros a b Hab E; by apply Hab, value_inj).
  unfold ENTITY_CONDITIONS.
  match goal with |- context [dict_literal ?l] => set (items := l) end.
  assert (Hkeys : NoDup items.*1).
  { subst items. cbn [fmap list_fmap fst].
    repeat (apply NoDup_cons; split;
            [rewrite ?not_elem_of_cons; repeat split;
             first [ by apply Hne | apply Hnone | apply not_elem_of_nil ]|]).
    apply NoDup_nil_2. }
  split.
  - by rewrite dict_literal_size_NoDup.
  - intros marker admitted t Hfield Ht.
    rewrite CONDITION_FIELDS_type in Hfield.
    assert (admitted = condition_types) as -> by congruence.
    repeat (apply elem_of_cons in Ht as [->|Ht];
            [eexists; apply (dict_literal_lookup_NoDup _ _ _ Hkeys);
             subst items;
             repeat first [ apply list_elem_of_here | apply list_elem_of_further ]|]).
    by apply elem_of_nil in Ht.
Qed.

End TableComplete.

(** * The demo device tracker *)

Section TrackerFacts.
Local Open Scope Z_scope.
Variable Random : Type.
Variable randrange : Z -> Z -> Random -> Z * Random.
Variable choice : list Z -> Random -> Z * Random.
Variable ServiceCall : Type.
Variable DOMAIN : string.
Variable SERVICE_RANDOMIZE_DEVICE_TRACKER_DATA : string.

Local Abbreviation offset := (demo.offset Random randrange choice).
Local Abbreviation random_see := (demo.random_see Random randrange choice).
Local Abbreviation observe := (demo.observe Random randrange choice ServiceCall).
Local Abbreviation setup_scanner :=
  (demo.setup_scanner Random randrange choice ServiceCall
     DOMAIN SERVICE_RANDOMIZE_DEVICE_TRACKER_DATA).

(** One randomised sighting: the call [see] receives, and the generator
    after the six draws. *)
Lemma random_see_recorded hass dev_id name (e : demo.Env Random) :
  exists call g,
    random_see hass demo.record_see dev_id name e
    = {| demo.random := g; demo.seen := demo.seen e ++ [call] |}
    /\ demo.dev_id call = dev_id /\ demo.host_name call = name
    /\ (exists g1 g2, demo.gps_accuracy call = (randrange 50 150 g1).1
                     /\ demo.battery call = (randrange 10 90 g2).1).
Proof.
  unfold demo.random_see.
  destruct (demo.offset _ _ _ (demo.random e)) as [dlat g1].
  destruct (demo.offset _ _ _ g1) as [dlon g2].
  destruct (randrange 50 150 g2) as [accuracy g3] eqn:Haccuracy.
  destruct (randrange 10 90 g3) as [level g4] eqn:Hlevel.
  eexists _, g4. split; [reflexivity|]. cbn. split; [done|]. split; [done|].
  exists g2, g3. by rewrite Haccuracy, Hlevel.
Qed.

(** X11. [setup_scanner] returns [True]; it tells [see] exactly three
    sightings, in the order "demo_paulus", "demo_anne_therese",
    "demo_home_boy", after whatever was seen before; the third is the same
    for every state of the random generator; and it registers [observe]
    once, under the demo domain and the randomise service name, after the
    services registered before. *)
Theorem setup_scanner_reports_three_sightings
    hass config discovery_info (w : demo.World Random ServiceCall) :
  exists paulus anne,
    (setup_scanner hass config demo.record_see discovery_info w).1 = true
    /\ demo.seen (demo.env (setup_scanner hass config demo.record_see
                                         discovery_info w).2)
       = demo.seen (demo.env w) ++ [
           paulus; anne;
           {| demo.dev_id := "demo_home_boy";
              demo.host_name := "Home Boy";
              demo.gps :=
                demo.PyList [float_sub (demo.latitude hass) float_0_00002;
                             float_add (demo.longitude hass) float_0_00002];
              demo.gps_accuracy := 20;
              demo.battery := 53 |} ]
    /\ demo.dev_id paulus = "demo_paulus" /\ demo.host_name paulus = "Paulus"
    /\ demo.dev_id anne = "demo_anne_therese"
    /\ demo.host_name anne = "Anne Therese"
    /\ demo.services (setup_scanner hass config demo.record_see
                                    discovery_info w).2
       = demo.services w ++ [
           (DOMAIN, SERVICE_RANDOMIZE_DEVICE_TRACKER_DATA,
            observe hass demo.record_see) ].
Proof.
  unfold demo.setup_scanner, demo.observe.
  destruct (random_see_recorded hass "demo_paulus" "Paulus" (demo.env w))
    as (paulus & g1 & -> & Hp1 & Hp2 & _).
  destruct (random_see_recorded hass "demo_anne_therese" "Anne Therese"
              {| demo.random := g1; demo.seen := demo.seen (demo.env w) ++ [paulus] |})
    as (anne & g2 & -> & Ha1 & Ha2 & _).
  exists paulus, anne. cbn. rewrite <- !app_assoc. by repeat split.
Qed.

(** X12. Each call of [observe] tells [see] exactly two sightings, for
    "demo_paulus" and "demo_anne_therese" in that order, and none for
    "demo_home_boy"; when [randrange] keeps within its bounds, both have a
    gps accuracy from 50 to 149 and a battery level from 10 to 89. *)
Theorem observe_two_sightings_in_range hass call (e : demo.Env Random) :
  (forall start stop g,
      start < stop -> start <= (randrange start stop g).1 < stop) ->
  exists first second,
    demo.seen (observe hass demo.record_see call e)
    = demo.seen e ++ [first; second]
    /\ demo.dev_id first = "demo_paulus" /\ demo.host_name first = "Paulus"
    /\ demo.dev_id second = "demo_anne_therese"
    /\ demo.host_name second = "Anne Therese"
    /\ Forall (fun s => 50 <= demo.gps_accuracy s < 150
                        /\ 10 <= demo.battery s < 90) [first; second].
Proof.
  intros Hrange. unfold demo.observe.
  destruct (random_see_recorded hass "demo_paulus" "Paulus" e)
    as (first & g1 & -> & Hf1 & Hf2 & fa & fb & Hfa & Hfb).
  destruct (random_see_recorded hass "demo_anne_therese" "Anne Therese"
              {| demo.random := g1; demo.seen := demo.seen e ++ [first] |})
    as (second & g2 & -> & Hs1 & Hs2 & sa & sb & Hsa & Hsb).
  exists first, second. cbn. rewrite <- app_assoc.
  do 5 (split; [done|]).
  repeat (apply Forall_cons; split;
          [rewrite ?Hfa, ?Hfb, ?Hsa, ?Hsb; split; by apply Hrange|]).
  apply Forall_nil_2.
Qed.

End TrackerFacts.


Section OffsetFacts.
Local Open Scope Z_scope.
Variable Random : Type.
Variable randrange : Z -> Z -> Random -> Z * Random.
Variable choice : list Z -> Random -> Z * Random.


End OffsetFacts.

(** ** The further statements at work *)

Lemma catalog_types_admitted_by_schema_witness :
  let hass := demo_hass [thermometer; bare_sensor; porch_light] in
  let d : gmap string string :=
    {[ "domain" := "sensor"; "entity_id" := "sensor.outdoor_temperature";
       "device_id" := "weather-station"; "condition" := "device";
       "type" := "is_temperature" ]} in
  async_get_conditions hass "weather-station" = Return [d]
  /\ exists t marker admitted,
      d !! CONF_TYPE = Some t /\
      fields (CONDITION_FIELDS demo_base_schema Return) !! CONF_TYPE
      = Some (marker, In admitted) /\
      kind marker = Required /\
      t ∈ admitted.
Proof.
  intros hass d.
  assert (Hout : async_get_conditions hass "weather-station" = Return [d])
    by (vm_compute; reflexivity).
  split; [exact Hout|].
  apply (catalog_types_admitted_by_schema demo_base_schema Return
           hass "weather-station" [d] d Hout).
  apply list_elem_of_here.
Defined.

Lemma catalog_descriptor_fields_witness :
  let hass := demo_hass [thermometer; bare_sensor; porch_light] in
  let d : gmap string string :=
    {[ "domain" := "sensor"; "entity_id" := "sensor.outdoor_temperature";
       "device_id" := "weather-station"; "condition" := "device";
       "type" := "is_temperature" ]} in
  async_get_conditions hass "weather-station" = Return [d]
  /\ dom d = {[ "type"; "condition"; "device_id"; "entity_id"; "domain" ]}
  /\ d !! "condition" = Some "device"
  /\ d !! "device_id" = Some "weather-station"
  /\ d !! "domain" = Some "sensor".
Proof.
  intros hass d.
  assert (Hout : async_get_conditions hass "weather-station" = Return [d])
    by (vm_compute; reflexivity).
  split; [exact Hout|].
  apply (catalog_descriptor_fields hass "weather-station" [d] d Hout).
  apply list_elem_of_here.
Defined.

Lemma catalog_one_descriptor_per_measured_entity_witness :
  let hass :=
    demo_hass_unit (Some "s") [bare_sensor; porch_light; thermometer] in
  exists out,
    async_get_conditions hass "weather-station" = Return out
    /\ (fun d : gmap string string => d !! "entity_id") <$> out
       = [Some "sensor.uptime"; Some "sensor.outdoor_temperature"].
Proof.
  intros hass.
  destruct (async_get_conditions hass "weather-station") as [out|e] eqn:Hout;
    [|vm_compute in Hout; discriminate Hout].
  exists out. split; [reflexivity|].
  rewrite (catalog_one_descriptor_per_measured_entity
             hass "weather-station" out Hout).
  vm_compute. reflexivity.
Defined.

Lemma catalog_returns_iff_lookups_return_witness :
  let ghost := {| entity_id := "sensor.ghost"; domain := "sensor" |} in
  let hass := demo_hass [thermometer; ghost; bare_sensor] in
  (exists out,
      async_get_conditions (demo_hass [thermometer; bare_sensor])
                           "weather-station" = Return out)
  /\ get_device_class hass (VStr "sensor.ghost")
     = Raise (HomeAssistantError "Unknown entity")
  /\ async_get_conditions hass "weather-station"
     = Raise (HomeAssistantError "Unknown entity").
Proof.
  intros ghost hass. split; [|split].
  - apply (proj1 (catalog_returns_iff_lookups_return
                    (demo_hass [thermometer; bare_sensor]) "weather-station")).
    intros entry [_ Hin]%list_elem_of_filter.
    apply elem_of_cons in Hin as [->|Hin];
      [split; eexists; vm_compute; reflexivity|].
    apply list_elem_of_singleton in Hin as ->.
    split; eexists; vm_compute; reflexivity.
  - vm_compute. reflexivity.
  - eapply (proj2 (catalog_returns_iff_lookups_return hass "weather-station")
              [thermometer] ghost [bare_sensor]).
    + vm_compute. reflexivity.
    + vm_compute. reflexivity.
    + left. vm_compute. reflexivity.
Defined.

Lemma capabilities_other_errors_propagate_witness :
  let hass :=
    {| async_get_registry := demo_registry [];
       get_device_class := fun _ => Return None;
       get_unit_of_measurement := fun _ => Raise (Invalid "not an entity id") |} in
  async_get_condition_capabilities hass (dict_literal [("above", VInt 3)])
  = Raise (KeyError "entity_id")
  /\ async_get_condition_capabilities hass
       (demo_config "sensor.uptime" "is_value" [("above", VInt 3)])
     = Raise (Invalid "not an entity id").
Proof.
  intros hass. split.
  - apply (proj1 (capabilities_other_errors_propagate hass _)).
    vm_compute. reflexivity.
  - apply (proj2 (capabilities_other_errors_propagate hass _)
             (VStr "sensor.uptime")).
    + vm_compute. reflexivity.
    + reflexivity.
    + reflexivity.
Defined.

Lemma compiler_missing_entity_id_witness :
  let config : gmap string Value :=
    dict_literal [("type", VStr "is_value"); ("below", VInt 90)] in
  config !! CONF_ENTITY_ID = None
  /\ async_condition_from_config (gmap string Value)
       Return demo_numeric_state_validate_config Return
       (demo_hass [bare_sensor]) config
     = Raise (KeyError "entity_id").
Proof.
  intros config.
  assert (Hmissing : config !! CONF_ENTITY_ID = None) by (vm_compute; reflexivity).
  split; [exact Hmissing|].
  exact (compiler_missing_entity_id (gmap string Value)
           Return demo_numeric_state_validate_config Return
           (demo_hass [bare_sensor]) config Hmissing).
Defined.

Lemma compiler_reads_entity_and_bounds_only_witness :
  let bound := [("above", VFloat (S754_finite false 43 (-1)))] in
  let config1 := demo_config "sensor.outdoor_temperature" "is_temperature" bound in
  let config2 := demo_config "sensor.outdoor_temperature" "is_humidity" bound in
  let hass := demo_hass [thermometer] in
  config1 <> config2
  /\ numeric_state_config config1 = numeric_state_config config2
  /\ async_condition_from_config (gmap string Value)
       Return demo_numeric_state_validate_config Return hass config1
     = async_condition_from_config (gmap string Value)
         Return demo_numeric_state_validate_config Return hass config2.
Proof.
  intros bound config1 config2 hass. split.
  - intros Heq. apply (f_equal (fun c : gmap string Value => c !! "type")) in Heq.
    vm_compute in Heq. discriminate Heq.
  - apply (compiler_reads_entity_and_bounds_only (gmap string Value)
             Return demo_numeric_state_validate_config Return hass
             config1 config2); vm_compute; reflexivity.
Defined.

Lemma listed_condition_has_capabilities_witness :
  let hass := demo_hass [thermometer; bare_sensor; porch_light] in
  let d : gmap string string :=
    {[ "domain" := "sensor"; "entity_id" := "sensor.outdoor_temperature";
       "device_id" := "weather-station"; "condition" := "device";
       "type" := "is_temperature" ]} in
  let config : gmap string Value := <["below" := VInt 30]> (VStr <$> d) in
  async_get_conditions hass "weather-station" = Return [d]
  /\ exists entity u capabilities above below,
      d !! "entity_id" = Some entity /\
      get_unit_of_measurement hass (VStr entity) = Return (Some u) /\
      async_get_condition_capabilities hass config
      = Return {[ "extra_fields" := vol_Schema capabilities ]} /\
      capabilities !! "above" = Some (above, Coerce py_float) /\
      capabilities !! "below" = Some (below, Coerce py_float) /\
      description above = Some {[ "suffix" := u ]} /\
      description below = Some {[ "suffix" := u ]}.
Proof.
  intros hass d config.
  assert (Hout : async_get_conditions hass "weather-station" = Return [d])
    by (vm_compute; reflexivity).
  split; [exact Hout|].
  apply (listed_condition_has_capabilities hass "weather-station" [d] d config Hout).
  - apply list_elem_of_here.
  - vm_compute. reflexivity.
Defined.

Lemma listed_condition_compiles_for_its_entity_witness :
  let hass := demo_hass [thermometer; bare_sensor; porch_light] in
  let d : gmap string string :=
    {[ "domain" := "sensor"; "entity_id" := "sensor.outdoor_temperature";
       "device_id" := "weather-station"; "condition" := "device";
       "type" := "is_temperature" ]} in
  let config : gmap string Value := <["below" := VInt 30]> (VStr <$> d) in
  async_get_conditions hass "weather-station" = Return [d]
  /\ exists (entry : RegistryEntry) (built : gmap string Value),
      entry ∈ async_entries_for_device (async_get_registry hass) "weather-station" /\
      domain entry = DOMAIN /\
      numeric_state_config config = Return built /\
      built !! "entity_id" = Some (VStr (entity_id entry)) /\
      built !! "condition" = Some (VStr "numeric_state") /\
      built !! "above" = config !! "above" /\
      built !! "below" = config !! "below" /\
      built !! "type" = None /\
      built !! "device_id" = None /\
      built !! "domain" = None.
Proof.
  intros hass d config.
  assert (Hout : async_get_conditions hass "weather-station" = Return [d])
    by (vm_compute; reflexivity).
  split; [exact Hout|].
  apply (listed_condition_compiles_for_its_entity
           hass "weather-station" [d] d config Hout).
  - apply list_elem_of_here.
  - vm_compute. reflexivity.
Defined.

Lemma ENTITY_CONDITIONS_keeps_every_item_witness :
  (forall member : SensorDeviceClass, value member <> DEVICE_CLASS_NONE)
  /\ size ENTITY_CONDITIONS = 27
  /\ exists c, ENTITY_CONDITIONS !! c = Some [ {[CONF_TYPE := CONF_IS_BATTERY_LEVEL]} ].
Proof.
  assert (Hnone : forall member : SensorDeviceClass,
             value member <> DEVICE_CLASS_NONE)
    by (intros []; discriminate).
  split; [exact Hnone|].
  destruct (ENTITY_CONDITIONS_keeps_every_item demo_base_schema Return Hnone)
    as [Hsize Htypes].
  split; [exact Hsize|].
  eapply Htypes; [apply CONDITION_FIELDS_type|].
  apply (bool_decide_unpack _). vm_compute. exact I.
Defined.

Lemma lcg_randrange_in_range (start stop g : Z) :
  (start < stop)%Z ->
  (start <= (demo.lcg_randrange start stop g).1 < stop)%Z.
Proof.
  intros Hlt. unfold demo.lcg_randrange. cbn [fst].
  pose proof (Z.mod_pos_bound g (stop - start)). lia.
Qed.


Lemma observe_two_sightings_in_range_witness :
  let hass :=
    {| demo.latitude := int_to_float 52; demo.longitude := int_to_float 5 |} in
  let e := {| demo.random := 2024%Z; demo.seen := [] |} in
  exists first second,
    demo.seen (demo.observe Z demo.lcg_randrange demo.lcg_choice unit
                 hass demo.record_see None e)
    = demo.seen e ++ [first; second]
    /\ demo.dev_id first = "demo_paulus" /\ demo.host_name first = "Paulus"
    /\ demo.dev_id second = "demo_anne_therese"
    /\ demo.host_name second = "Anne Therese"
    /\ Forall (fun s => (50 <= demo.gps_accuracy s < 150)%Z
                        /\ (10 <= demo.battery s < 90)%Z) [first; second].
Proof.
  intros hass e.
  exact (observe_two_sightings_in_range Z demo.lcg_randrange demo.lcg_choice
           unit hass None e lcg_randrange_in_range).
Defined.


(** ** When the capability builder returns *)

Lemma capabilities_Return_inv hass (config : gmap string Value) capabilities :
  async_get_condition_capabilities hass config = Return capabilities ->
  exists entity u,
    config !! CONF_ENTITY_ID = Some entity /\
    get_unit_of_measurement hass entity = Return (Some u) /\
    truthy (Some u) = true.
Proof.
  unfold async_get_condition_capabilities, getitem.
  destruct (config !! CONF_ENTITY_ID) as [entity|] eqn:Hentity; [|discriminate].
  rewrite bind_Return.
  destruct (get_unit_of_measurement hass entity) as [[u|]|e] eqn:Hu;
    cbn [try_except_HomeAssistantError].
  - rewrite bind_Return. destruct (truthy (Some u)) eqn:Htrue; [|discriminate].
    intros _. by exists entity, u.
  - discriminate.
  - destruct (is_HomeAssistantError e); discriminate.
Qed.

(** X14. The capability builder returns exactly when the configuration has
    an entity id and the unit lookup for it yields a non-empty unit; in
    every other case it raises. *)
Theorem capabilities_return_iff_unit hass (config : gmap string Value) :
  (exists capabilities,
      async_get_condition_capabilities hass config = Return capabilities)
  <-> (exists entity u,
         config !! CONF_ENTITY_ID = Some entity /\
         get_unit_of_measurement hass entity = Return (Some u) /\
         u <> "").
Proof.
  split.
  - intros [capabilities Hreturn].
    apply capabilities_Return_inv in Hreturn as (entity & u & Hentity & Hu & Htrue).
    exists entity, u. split; [done|]. split; [done|].
    apply truthy_true in Htrue as (s & Hs & Hne). congruence.
  - intros (entity & u & Hentity & Hu & Hne). eexists.
    apply (capabilities_with_unit hass config entity u Hentity Hu).
    apply truthy_true. eauto.
Qed.

(** X15. Every field the capability builder offers is one the schema of a
    condition configuration takes: its key is an optional field of
    [CONDITION_SCHEMA], whatever the base schema, and both coerce the value
    to float. *)
Theorem capability_fields_are_schema_fields
    (base : Schema) (cv_entity_id : Value -> Result Value)
    hass (config : gmap string Value) capabilities extra k marker validator :
  async_get_condition_capabilities hass config = Return capabilities ->
  capabilities !! "extra_fields" = Some (vol_Schema extra) ->
  extra !! k = Some (marker, validator) ->
  kind marker = Optional /\ validator = Coerce py_float
  /\ exists marker',
      fields (CONDITION_FIELDS base cv_entity_id) !! k
      = Some (marker', Any [Coerce py_float])
      /\ kind marker' = Optional.
Proof.
  intros Hreturn Hextra Hk.
  destruct (capabilities_Return_inv _ _ _ Hreturn)
    as (entity & u & Hentity & Hu & Htrue).
  rewrite (capabilities_with_unit hass config entity u Hentity Hu Htrue) in Hreturn.
  apply Return_inj in Hreturn. rewrite <- Hreturn in Hextra.
  rewrite lookup_singleton_eq in Hextra.
  assert (Hfields : extra
            = <["below" := ({| kind := Optional; key := "below";
                               description := Some {[ "suffix" := u ]} |},
                            Coerce py_float)]>
                (<["above" := ({| kind := Optional; key := "above";
                                  description := Some {[ "suffix" := u ]} |},
                               Coerce py_float)]> ∅)) by congruence.
  rewrite Hfields in Hk. clear Hfields Hextra Hreturn.
  rewrite lookup_insert in Hk. case_decide as Hbelow.
  - subst k. assert (Heq : ({| kind := Optional; key := "below";
                               description := Some {[ "suffix" := u ]} |},
                            Coerce py_float) = (marker, validator)) by congruence.
    pose proof (f_equal fst Heq) as Hm. pose proof (f_equal snd Heq) as Hv.
    cbn [fst snd] in Hm, Hv. rewrite <- Hm, <- Hv. cbn [kind].
    split; [done|]. split; [done|]. eexists. split.
    { unfold CONDITION_FIELDS, extend. cbn [fields].
      apply lookup_union_Some_l. vm_compute. reflexivity. }
    reflexivity.
  - rewrite lookup_insert in Hk. case_decide as Habove.
    + subst k. assert (Heq : ({| kind := Optional; key := "above";
                                 description := Some {[ "suffix" := u ]} |},
                              Coerce py_float) = (marker, validator)) by congruence.
      pose proof (f_equal fst Heq) as Hm. pose proof (f_equal snd Heq) as Hv.
      cbn [fst snd] in Hm, Hv. rewrite <- Hm, <- Hv. cbn [kind].
      split; [done|]. split; [done|]. eexists. split.
      { unfold CONDITION_FIELDS, extend. cbn [fields].
        apply lookup_union_Some_l. vm_compute. reflexivity. }
      reflexivity.
    + by rewrite lookup_empty in Hk.
Qed.

Lemma capabilities_return_iff_unit_witness :
  let hass := demo_hass [thermometer; bare_sensor; porch_light] in
  (exists capabilities,
      async_get_condition_capabilities hass
        (demo_config "sensor.outdoor_temperature" "is_temperature"
                     [("below", VInt 30)])
      = Return capabilities)
  /\ ~ (exists capabilities,
          async_get_condition_capabilities hass
            (demo_config "sensor.uptime" "is_value" [("below", VInt 30)])
          = Return capabilities).
Proof.
  intros hass. split.
  - apply (proj2 (capabilities_return_iff_unit hass _)).
    exists (VStr "sensor.outdoor_temperature"), "°C".
    split; [vm_compute; reflexivity|]. split; [vm_compute; reflexivity|].
    discriminate.
  - intros Hreturn.
    apply (proj1 (capabilities_return_iff_unit hass _)) in Hreturn
      as (entity & u & Hentity & Hu & _).
    vm_compute in Hentity. injection Hentity as <-.
    vm_compute in Hu. discriminate Hu.
Defined.

Lemma capability_fields_are_schema_fields_witness :
  let hass := demo_hass [thermometer; bare_sensor; porch_light] in
  let config :=
    demo_config "sensor.outdoor_temperature" "is_temperature"
                [("below", VInt 30)] in
  let marker := {| kind := Optional; key := "above";
                   description := Some {[ "suffix" := "°C" ]} |} in
  kind marker = Optional /\ Coerce py_float = Coerce py_float
  /\ exists marker',
      fields (CONDITION_FIELDS demo_base_schema Return) !! "above"
      = Some (marker', Any [Coerce py_float])
      /\ kind marker' = Optional.
Proof.
  intros hass config marker.
  eapply (capability_fields_are_schema_fields demo_base_schema Return
            hass config _ _ "above" marker (Coerce py_float)).
  - vm_compute. reflexivity.
  - vm_compute. reflexivity.
  - vm_compute. reflexivity.
Defined.
